(** * tgalloc: the type-generic allocation facade and its default backend

    A shallow embedding of [tgalloc.h], [__tgalloc_c23.h], [__tgalloc_c99.h],
    [tgalloc_default.h] and of the instrumented allocator of
    [tests/tgalloc_tests.c].

    The library is a set of preprocessor macros.  A macro is embedded as a
    function over the (typed) argument expressions it receives; the
    conditional-compilation branches are selected by a record of the
    predefined macros the source tests.  [size_t] values are integers in
    [Z] reduced modulo [2 ^ size_bits]; pointers are addresses in [Z] with
    [NULL = 0]. *)

From stdpp Require Import base option gmap list.
From Stdlib Require Import ZArith Lia.

Local Open Scope Z_scope.

(** ** Preprocessor environment *)

(** The predefined macros that the [#if] chains of [tgalloc.h] inspect. *)
Record cpp_env := {
  STDC_VERSION : option Z;   (* __STDC_VERSION__, when defined *)
  GNUC : bool;               (* defined(__GNUC__) *)
  CLANG : bool;              (* defined(__clang__) *)
  MSC_VER : bool;            (* defined(_MSC_VER) *)
  MSVC_LANG : option Z       (* _MSVC_LANG, when defined *)
}.

(** [defined(M) && M >= v] *)
Definition defined_ge (m : option Z) (v : Z) : bool :=
  match m with
  | Some x => v <=? x
  | None => false
  end.

Inductive typeof_mode := TypeofNative | TypeofErased.
Inductive alignof_mode := AlignofC11 | AlignofGNU | AlignofFallback.

(** The [#if] chain that defines [_tgalloc_typeof]. *)
Definition typeof_support (c : cpp_env) : typeof_mode :=
  if defined_ge (STDC_VERSION c) 202000 then TypeofNative
  else if GNUC c || CLANG c then TypeofNative
  else if MSC_VER c && defined_ge (MSVC_LANG c) 202000 then TypeofNative
  else TypeofErased.

(** The [#if] chain that defines [_tgalloc_alignof_impl]. *)
Definition alignof_support (c : cpp_env) : alignof_mode :=
  if defined_ge (STDC_VERSION c) 201112 then AlignofC11
  else if GNUC c || CLANG c then AlignofGNU
  else AlignofFallback.

(** The [#if] that includes [__tgalloc_c23.h] rather than [__tgalloc_c99.h]. *)
Definition c23_dispatch (c : cpp_env) : bool :=
  defined_ge (STDC_VERSION c) 202000.

(** ** Types, sizes and alignments *)

(** What the target fixes: the width of [size_t] and the size and alignment
    of an object pointer. *)
Record abi := {
  size_bits : Z;
  sizeof_ptr : Z;
  alignof_ptr : Z
}.

(** The types the macros see.  A complete object type that is not a pointer
    is known by its size and its alignment. *)
Inductive ctype :=
| Tobject (size align : Z)
| Tpointer (t : ctype)
| Tvoidptr.

Definition sizeof (p : abi) (t : ctype) : Z :=
  match t with
  | Tobject s _ => s
  | Tpointer _ | Tvoidptr => sizeof_ptr p
  end.

(** The alignment the compiler reports for a type ([alignof], [__alignof__]):
    its natural alignment. *)
Definition alignof (p : abi) (t : ctype) : Z :=
  match t with
  | Tobject _ a => a
  | Tpointer _ | Tvoidptr => alignof_ptr p
  end.

(** Conversion to [size_t]. *)
Definition to_size_t (p : abi) (x : Z) : Z := x mod 2 ^ size_bits p.

(** [s * (n)] where [s] has type [size_t]: the count is converted to
    [size_t] and the product is taken in [size_t]. *)
Definition size_mul (p : abi) (s n : Z) : Z := to_size_t p (s * to_size_t p n).


(** ** Expressions, and the caller's pointer objects *)

Definition NULL : Z := 0.

Inductive expr :=
| Evar (a : Z) (t : ctype)   (* a declared object: its address, its type *)
| Ederef (e : expr)          (* *e *)
| Eaddrof (e : expr)         (* &e *)
| Econst (n : Z).            (* an integer argument: an element count *)

Definition is_lvalue (e : expr) : bool :=
  match e with
  | Evar _ _ | Ederef _ => true
  | _ => false
  end.

Fixpoint type_of (e : expr) : option ctype :=
  match e with
  | Evar _ t => Some t
  | Ederef e' =>
      match type_of e' with
      | Some (Tpointer t) => Some t
      | _ => None
      end
  | Eaddrof e' => if is_lvalue e' then Tpointer <$> type_of e' else None
  | Econst _ => None
  end.

(** The value of an integer argument. *)
Definition eval_count (e : expr) : option Z :=
  match e with
  | Econst n => Some n
  | _ => None
  end.

(** The pointer objects of the calling code: address to stored pointer. *)
Definition load (m : gmap Z Z) (a : Z) : option Z :=
  if decide (a = NULL) then None else m !! a.

Definition store (m : gmap Z Z) (a v : Z) : option (gmap Z Z) :=
  if decide (a = NULL) then None
  else match m !! a with
       | Some _ => Some (<[a := v]> m)
       | None => None
       end.

Fixpoint eval_lvalue (m : gmap Z Z) (e : expr) : option Z :=
  match e with
  | Evar a _ => Some a
  | Ederef e' => eval_rvalue m e'
  | _ => None
  end
with eval_rvalue (m : gmap Z Z) (e : expr) : option Z :=
  match e with
  | Evar a _ => load m a
  | Ederef e' => a ← eval_rvalue m e'; load m a
  | Eaddrof e' => eval_lvalue m e'
  | Econst _ => None
  end.

(** ** The backend interface and the state of a run *)

(** The active binding: [TGA] and the three functions.  A function that
    returns [None] has no defined behaviour on its arguments. *)
Record backend (W : Type) := {
  TGA : Z;
  TGA_ALLOC_A_S : Z -> Z -> Z -> W -> option (Z * W);
  TGA_REALLOC_A_S : Z -> Z -> Z -> Z -> Z -> W -> option (Z * W);
  TGA_FREE_A_S : Z -> Z -> Z -> Z -> W -> option W
}.
Arguments TGA {W} _.
Arguments TGA_ALLOC_A_S {W} _ _ _ _ _.
Arguments TGA_REALLOC_A_S {W} _ _ _ _ _ _ _.
Arguments TGA_FREE_A_S {W} _ _ _ _ _ _.

(** The caller's pointer objects, and the world the backend acts on. *)
Record state (W : Type) := {
  st_mem : gmap Z Z;
  st_world : W
}.
Arguments st_mem {W} _.
Arguments st_world {W} _.

(** ** The facade macros of [tgalloc.h] *)

(** The names the choosers select between. *)
Inductive helper :=
| H_palloc1 | H_palloc2 | H_pfree1 | H_pfree2.

(** A macro argument: a helper's name or an expression of the caller. *)
Inductive tok :=
| Tmacro (h : helper)
| Texpr (e : expr).

(** [_tgalloc_palloc_arg2(x1, x2, ...) x2] of [__tgalloc_c23.h]. *)
Definition _tgalloc_palloc_arg2 (xs : list tok) : option tok := xs !! 1%nat.

(** [_tgalloc_palloc_arg3(x1, x2, x3, ...) x3] of [__tgalloc_c99.h]. *)
Definition _tgalloc_palloc_arg3 (xs : list tok) : option tok := xs !! 2%nat.

Section Facade.
Context {W : Type}.
Variable cpp : cpp_env.
Variable tgt : abi.
Variable be : backend W.

(** [_tgalloc_typeof(x)]: [typeof(x)], or [void*] whatever [x] is. *)
Definition _tgalloc_typeof (x : expr) : option ctype :=
  match typeof_support cpp with
  | TypeofNative => type_of x
  | TypeofErased => Some Tvoidptr
  end.

(** [_tgalloc_alignof_impl(T)] *)
Definition _tgalloc_alignof_impl (t : ctype) : Z :=
  match alignof_support cpp with
  | AlignofC11 => alignof tgt t
  | AlignofGNU => alignof tgt t
  | AlignofFallback =>
      if sizeof tgt t <? sizeof tgt Tvoidptr
      then sizeof tgt t else sizeof tgt Tvoidptr
  end.

(** [_tgalloc_alignof(ptr)] is
    [_tgalloc_alignof_impl(_tgalloc_typeof( *(ptr)))]. *)
Definition _tgalloc_alignof (ptr : expr) : option Z :=
  _tgalloc_alignof_impl <$> _tgalloc_typeof (Ederef ptr).

(** [_tgalloc_sizeof(ptr)] is [sizeof( *(ptr))]. *)
Definition _tgalloc_sizeof (ptr : expr) : option Z :=
  sizeof tgt <$> type_of (Ederef ptr).

(** [_tgalloc_sizeof_n(ptr, n)] is [((_tgalloc_sizeof(ptr)) * (n))]. *)
Definition _tgalloc_sizeof_n (ptr n : expr) : option Z :=
  s ← _tgalloc_sizeof ptr;
  c ← eval_count n;
  Some (size_mul tgt s c).

(** [((ptr) = (_tgalloc_typeof(ptr))TGA_ALLOC_A_S(TGA,
      _tgalloc_alignof(ptr), _tgalloc_sizeof(ptr)))] *)
Definition _tgalloc_palloc1 (ptr : expr) (st : state W)
  : option (Z * state W) :=
  al ← _tgalloc_alignof ptr;
  sz ← _tgalloc_sizeof ptr;
  _ ← _tgalloc_typeof ptr;
  a ← eval_lvalue (st_mem st) ptr;
  '(p, w) ← TGA_ALLOC_A_S be (TGA be) al sz (st_world st);
  m ← store (st_mem st) a p;
  Some (p, {| st_mem := m; st_world := w |}).

(** The same with [_tgalloc_sizeof_n(ptr, len)]. *)
Definition _tgalloc_palloc2 (ptr len : expr) (st : state W)
  : option (Z * state W) :=
  al ← _tgalloc_alignof ptr;
  sz ← _tgalloc_sizeof_n ptr len;
  _ ← _tgalloc_typeof ptr;
  a ← eval_lvalue (st_mem st) ptr;
  '(p, w) ← TGA_ALLOC_A_S be (TGA be) al sz (st_world st);
  m ← store (st_mem st) a p;
  Some (p, {| st_mem := m; st_world := w |}).

(** [TGA_FREE_A_S(TGA, (void* )(ptr), _tgalloc_alignof(ptr),
      _tgalloc_sizeof(ptr))] *)
Definition _tgalloc_pfree1 (ptr : expr) (st : state W)
  : option (state W) :=
  al ← _tgalloc_alignof ptr;
  sz ← _tgalloc_sizeof ptr;
  p ← eval_rvalue (st_mem st) ptr;
  w ← TGA_FREE_A_S be (TGA be) p al sz (st_world st);
  Some {| st_mem := st_mem st; st_world := w |}.

Definition _tgalloc_pfree2 (ptr len : expr) (st : state W)
  : option (state W) :=
  al ← _tgalloc_alignof ptr;
  sz ← _tgalloc_sizeof_n ptr len;
  p ← eval_rvalue (st_mem st) ptr;
  w ← TGA_FREE_A_S be (TGA be) p al sz (st_world st);
  Some {| st_mem := st_mem st; st_world := w |}.

(** What follows a chooser: the selected token applied to the argument
    list.  Only a helper's name applied to as many arguments as it has
    parameters expands. *)
Definition expand_alloc (t : tok) (args : list expr) (st : state W)
  : option (Z * state W) :=
  match t, args with
  | Tmacro H_palloc1, [ptr] => _tgalloc_palloc1 ptr st
  | Tmacro H_palloc2, [ptr; len] => _tgalloc_palloc2 ptr len st
  | _, _ => None
  end.

Definition expand_free (t : tok) (args : list expr) (st : state W)
  : option (state W) :=
  match t, args with
  | Tmacro H_pfree1, [ptr] => _tgalloc_pfree1 ptr st
  | Tmacro H_pfree2, [ptr; len] => _tgalloc_pfree2 ptr len st
  | _, _ => None
  end.

(** [__tgalloc_c23.h]: the chooser sees the variable arguments only,
    [__VA_ARGS__ __VA_OPT__(,) _tgalloc_palloc2, _tgalloc_palloc1]. *)
Definition _tgalloc_palloc_choose_c23 (va : list expr) : option tok :=
  _tgalloc_palloc_arg2
    ((Texpr <$> va) ++ [Tmacro H_palloc2; Tmacro H_palloc1]).

Definition _tgalloc_pfree_choose_c23 (va : list expr) : option tok :=
  _tgalloc_palloc_arg2
    ((Texpr <$> va) ++ [Tmacro H_pfree2; Tmacro H_pfree1]).

(** [__tgalloc_c99.h]: the chooser sees every argument,
    [__VA_ARGS__, _tgalloc_palloc2, _tgalloc_palloc1]. *)
Definition _tgalloc_palloc_choose_c99 (args : list expr) : option tok :=
  _tgalloc_palloc_arg3
    ((Texpr <$> args) ++ [Tmacro H_palloc2; Tmacro H_palloc1]).

Definition _tgalloc_pfree_choose_c99 (args : list expr) : option tok :=
  _tgalloc_palloc_arg3
    ((Texpr <$> args) ++ [Tmacro H_pfree2; Tmacro H_pfree1]).

(** [palloc(ptr, ...)] *)
Definition palloc (ptr : expr) (va : list expr) (st : state W)
  : option (Z * state W) :=
  if c23_dispatch cpp
  then t ← _tgalloc_palloc_choose_c23 va; expand_alloc t (ptr :: va) st
  else t ← _tgalloc_palloc_choose_c99 (ptr :: va);
       expand_alloc t (ptr :: va) st.

(** [pfree(ptr, ...)] *)
Definition pfree (ptr : expr) (va : list expr) (st : state W)
  : option (state W) :=
  if c23_dispatch cpp
  then t ← _tgalloc_pfree_choose_c23 va; expand_free t (ptr :: va) st
  else t ← _tgalloc_pfree_choose_c99 (ptr :: va);
       expand_free t (ptr :: va) st.

(** [ppalloc(pptr, ...)] is [palloc( *(pptr) __VA_OPT__(,) __VA_ARGS__)]. *)
Definition ppalloc (pptr : expr) (va : list expr) (st : state W)
  : option (Z * state W) :=
  palloc (Ederef pptr) va st.

(** [TGA_REALLOC_A_S(TGA, (void* )(ptr), _tgalloc_alignof(ptr),
      _tgalloc_sizeof_n(ptr, old_len), _tgalloc_sizeof_n(ptr, new_len))] *)
Definition _tgalloc_realloc2 (ptr old_len new_len : expr) (st : state W)
  : option (Z * W) :=
  al ← _tgalloc_alignof ptr;
  so ← _tgalloc_sizeof_n ptr old_len;
  sn ← _tgalloc_sizeof_n ptr new_len;
  p ← eval_rvalue (st_mem st) ptr;
  TGA_REALLOC_A_S be (TGA be) p al so sn (st_world st).

(** [( *(pptr) = _tgalloc_realloc2( *(pptr), old_len, new_len))] *)
Definition pprealloc (pptr old_len new_len : expr) (st : state W)
  : option (Z * state W) :=
  a ← eval_lvalue (st_mem st) (Ederef pptr);
  '(q, w) ← _tgalloc_realloc2 (Ederef pptr) old_len new_len st;
  m ← store (st_mem st) a q;
  Some (q, {| st_mem := m; st_world := w |}).

End Facade.

(** ** The default backend *)

(** The heap primitives of the C library that the default backend and the
    test allocator delegate to, over a heap [H].  [realloc] and [free] have
    no defined behaviour ([None]) on a pointer that is not theirs to take;
    freeing the null pointer does nothing (ISO C, 7.22.3.3). *)
Class LibC (H : Type) := {
  malloc : Z -> H -> Z * H;
  realloc : Z -> Z -> H -> option (Z * H);
  free : Z -> H -> option H;
  free_NULL : forall h : H, free NULL h = Some h
}.

Section DefaultBackend.
Context {H : Type} `{!LibC H}.

Definition _tgalloc_dflt_alloc_aligned_sized
    (self alignment size : Z) (h : H) : option (Z * H) :=
  Some (malloc size h).

Definition _tgalloc_dflt_realloc_aligned_sized
    (self ptr alignment old_size new_size : Z) (h : H) : option (Z * H) :=
  realloc ptr new_size h.

Definition _tgalloc_dflt_free_aligned_sized
    (self ptr alignment size : Z) (h : H) : option H :=
  free ptr h.

(** [#define TGA (dflt_allo_t* )NULL] and the three defaults. *)
Definition dflt : backend H := {|
  TGA := NULL;
  TGA_ALLOC_A_S := _tgalloc_dflt_alloc_aligned_sized;
  TGA_REALLOC_A_S := _tgalloc_dflt_realloc_aligned_sized;
  TGA_FREE_A_S := _tgalloc_dflt_free_aligned_sized
|}.
End DefaultBackend.

(** ** The allocator of [tests/tgalloc_tests.c] *)

Record TestAllocator := {
  alloc_count : Z;
  free_count : Z;
  total_allocated : Z;
  should_fail : bool
}.

(** The global [test_allocator] next to the C library's heap. *)
Record test_world (H : Type) := {
  test_allocator : TestAllocator;
  test_heap : H
}.
Arguments test_allocator {H} _.
Arguments test_heap {H} _.

(** [&test_allocator] *)
Definition addr_test_allocator : Z := 4096.

Section TestBackend.
Context {H : Type} `{!LibC H}.
Variable tgt : abi.

Definition test_alloc (self alignment size : Z) (w : test_world H)
  : option (Z * test_world H) :=
  if decide (self = addr_test_allocator) then
    let ta := test_allocator w in
    if should_fail ta then Some (NULL, w)
    else
      let ta' := {| alloc_count := to_size_t tgt (alloc_count ta + 1);
                    free_count := free_count ta;
                    total_allocated :=
                      to_size_t tgt (total_allocated ta + size);
                    should_fail := should_fail ta |} in
      let '(ptr, h) := malloc size (test_heap w) in
      Some (ptr, {| test_allocator := ta'; test_heap := h |})
  else None.

Definition test_realloc (self ptr alignment old_size new_size : Z)
    (w : test_world H) : option (Z * test_world H) :=
  if decide (self = addr_test_allocator) then
    let ta := test_allocator w in
    if should_fail ta then Some (NULL, w)
    else
      let ta' := {| alloc_count := alloc_count ta;
                    free_count := free_count ta;
                    total_allocated :=
                      to_size_t tgt
                        (total_allocated ta - old_size + new_size);
                    should_fail := should_fail ta |} in
      '(q, h) ← realloc ptr new_size (test_heap w);
      Some (q, {| test_allocator := ta'; test_heap := h |})
  else None.

Definition test_free (self ptr alignment size : Z) (w : test_world H)
  : option (test_world H) :=
  if decide (self = addr_test_allocator) then
    if decide (ptr = NULL) then Some w
    else
      let ta := test_allocator w in
      let ta' := {| alloc_count := alloc_count ta;
                    free_count := to_size_t tgt (free_count ta + 1);
                    total_allocated :=
                      to_size_t tgt (total_allocated ta - size);
                    should_fail := should_fail ta |} in
      h ← free ptr (test_heap w);
      Some {| test_allocator := ta'; test_heap := h |}
  else None.

(** [#define TGA (TestAllocator* )&test_allocator] and its functions. *)
Definition test_backend : backend (test_world H) := {|
  TGA := addr_test_allocator;
  TGA_ALLOC_A_S := test_alloc;
  TGA_REALLOC_A_S := test_realloc;
  TGA_FREE_A_S := test_free
|}.
End TestBackend.

(** ** Two more instances of the interfaces, to run the macros on *)

(** A heap of live blocks (base address to size) carved from
    [brk, heap_end). *)
Record heap := {
  blocks : gmap Z Z;
  brk : Z;
  heap_end : Z
}.

Definition heap_malloc (n : Z) (h : heap) : Z * heap :=
  if decide (brk h + Z.max n 1 <= heap_end h) then
    (brk h, {| blocks := <[brk h := n]> (blocks h);
               brk := brk h + Z.max n 1;
               heap_end := heap_end h |})
  else (NULL, h).

Definition heap_free (p : Z) (h : heap) : option heap :=
  if decide (p = NULL) then Some h
  else match blocks h !! p with
       | Some _ => Some {| blocks := delete p (blocks h);
                           brk := brk h; heap_end := heap_end h |}
       | None => None
       end.

Definition heap_realloc (p n : Z) (h : heap) : option (Z * heap) :=
  if decide (p = NULL) then Some (heap_malloc n h)
  else match blocks h !! p with
       | None => None
       | Some old =>
           if decide (n <= old) then
             Some (p, {| blocks := <[p := n]> (blocks h);
                         brk := brk h; heap_end := heap_end h |})
           else
             let '(q, h') := heap_malloc n h in
             if decide (q = NULL) then Some (NULL, h)
             else Some (q, {| blocks := delete p (blocks h');
                              brk := brk h'; heap_end := heap_end h' |})
       end.

#[export] Instance heap_libc : LibC heap := {|
  malloc := heap_malloc;
  realloc := heap_realloc;
  free := heap_free;
  free_NULL := fun h => eq_refl
|}.

(** A backend that records the calls it receives and answers [result]. *)
Inductive call :=
| Call_alloc (self alignment size : Z)
| Call_realloc (self ptr alignment old_size new_size : Z)
| Call_free (self ptr alignment size : Z).

Definition recorder (result : Z) : backend (list call) := {|
  TGA := NULL;
  TGA_ALLOC_A_S := fun self al sz log =>
    Some (result, log ++ [Call_alloc self al sz]);
  TGA_REALLOC_A_S := fun self p al so sn log =>
    Some (result, log ++ [Call_realloc self p al so sn]);
  TGA_FREE_A_S := fun self p al sz log =>
    Some (log ++ [Call_free self p al sz])
|}.

(** Targets, compilers and types to run on. *)
Definition LP64 : abi :=
  {| size_bits := 64; sizeof_ptr := 8; alignof_ptr := 8 |}.

(** [clang -std=c2x], the compiler of the Makefile. *)
Definition clang_c2x : cpp_env :=
  {| STDC_VERSION := Some 202000; GNUC := true; CLANG := true;
     MSC_VER := false; MSVC_LANG := None |}.

(** A C99 compiler without the GNU extensions. *)
Definition plain_c99 : cpp_env :=
  {| STDC_VERSION := Some 199901; GNUC := false; CLANG := false;
     MSC_VER := false; MSVC_LANG := None |}.

(** MSVC compiling as C++23: [_MSVC_LANG] is defined and
    [__STDC_VERSION__] is not. *)
Definition msvc_cxx23 : cpp_env :=
  {| STDC_VERSION := None; GNUC := false; CLANG := false;
     MSC_VER := true; MSVC_LANG := Some 202302 |}.

Definition Tchar : ctype := Tobject 1 1.
Definition Tint : ctype := Tobject 4 4.
Definition Tdouble : ctype := Tobject 8 8.
(** [typedef struct { int x; int y; } Point;] *)
Definition Point : ctype := Tobject 8 4.

(** ** What the macros compute: auxiliary definitions and lemmas *)

(** The type [_tgalloc_typeof(x)] stands for when [x] has type [t]. *)
Definition typeof_type (cpp : cpp_env) (t : ctype) : ctype :=
  match typeof_support cpp with
  | TypeofNative => t
  | TypeofErased => Tvoidptr
  end.

(** The alignment [_tgalloc_alignof(ptr)] yields when [ptr] points to [t]. *)
Definition derived_alignment (cpp : cpp_env) (tgt : abi) (t : ctype) : Z :=
  _tgalloc_alignof_impl cpp tgt (typeof_type cpp t).

(** The caller's object at [a] now holds [p]; the backend left [w]. *)
Definition assign {W} (a p : Z) (w : W) (st : state W) : state W :=
  {| st_mem := <[a := p]> (st_mem st); st_world := w |}.

(** "Call the backend's allocate with this alignment and this size and
    assign what it returns to the object at [a]; the value of the call is
    the pointer assigned." *)
Definition allocate_into {W} (be : backend W) (a al sz : Z) (st : state W)
  : option (Z * state W) :=
  '(p, w) ← TGA_ALLOC_A_S be (TGA be) al sz (st_world st);
  m ← store (st_mem st) a p;
  Some (p, {| st_mem := m; st_world := w |}).

(** "Call the backend's free with this pointer, alignment and size." *)
Definition release {W} (be : backend W) (p al sz : Z) (st : state W)
  : option (state W) :=
  w ← TGA_FREE_A_S be (TGA be) p al sz (st_world st);
  Some {| st_mem := st_mem st; st_world := w |}.

(** "Call the backend's reallocate on the pointer [p] held at [a] and
    assign what it returns to the object at [a]." *)
Definition reallocate_into {W} (be : backend W) (a p al so sn : Z)
    (st : state W) : option (Z * state W) :=
  '(q, w) ← TGA_REALLOC_A_S be (TGA be) p al so sn (st_world st);
  m ← store (st_mem st) a q;
  Some (q, {| st_mem := m; st_world := w |}).

(** The allocate-array sentence read literally: the alignment argument is
    the natural alignment of the pointee type and the size argument is the
    product of its size and the count. *)
Definition natural_alignment_call {W} (cpp : cpp_env) (tgt : abi)
    (be : backend W) (ptr : expr) (t : ctype) (a n : Z) (st : state W) : Prop :=
  palloc cpp tgt be ptr [Econst n] st =
    allocate_into be a (alignof tgt t) (sizeof tgt t * n) st.


(** The caller of the tests: [int* nums = NULL;] at address 100, an
    out-parameter [int** out = &nums;] at address 200, and [char* text =
    NULL;] at address 300. *)
Definition nums : expr := Evar 100 (Tpointer Tint).
Definition out : expr := Evar 200 (Tpointer (Tpointer Tint)).
Definition text : expr := Evar 300 (Tpointer Tchar).
Definition caller_mem : gmap Z Z := {[ 100 := NULL; 200 := 100; 300 := NULL ]}.

(** An empty heap with room for 64 bytes. *)
Definition heap0 : heap :=
  {| blocks := ∅; brk := 65536; heap_end := 65536 + 64 |}.

(** A heap whose only block holds five [int]s, with 4 bytes left, and a
    caller whose [nums] points to that block. *)
Definition heap_full : heap :=
  {| blocks := {[ 65536 := 20 ]}; brk := 65556; heap_end := 65560 |}.
Definition holder_mem : gmap Z Z := {[ 100 := 65536; 200 := 100 ]}.

(** [test_allocator.should_fail = true;] after [reset_test_allocator()]. *)
Definition failing : test_world heap :=
  {| test_allocator := {| alloc_count := 0; free_count := 0;
                          total_allocated := 0; should_fail := true |};
     test_heap := heap0 |}.

(** The test allocator after [reset_test_allocator()]. *)
Definition fresh : test_world heap :=
  {| test_allocator := {| alloc_count := 0; free_count := 0;
                          total_allocated := 0; should_fail := false |};
     test_heap := heap0 |}.

(** The first half of the test [custom_allocator]: [ppalloc(&nums, 10)]
    then [pfree(nums, 10)]; the allocator's counters after each step. *)
Definition custom_allocator_test
  : option (TestAllocator * TestAllocator) :=
  '(_, st1) ← ppalloc clang_c2x LP64 (test_backend LP64) (Eaddrof nums)
                [Econst 10] {| st_mem := caller_mem; st_world := fresh |};
  st2 ← pfree clang_c2x LP64 (test_backend LP64) nums [Econst 10] st1;
  Some (test_allocator (st_world st1), test_allocator (st_world st2)).

(** [gcc -std=c17]: the GNU extensions without C23. *)
Definition gcc_c17 : cpp_env :=
  {| STDC_VERSION := Some 201710; GNUC := true; CLANG := false;
     MSC_VER := false; MSVC_LANG := None |}.

(** The test allocator after [reset_test_allocator()], over the heap that
    has no room left. *)
Definition fresh_full : test_world heap :=
  {| test_allocator := {| alloc_count := 0; free_count := 0;
                          total_allocated := 0; should_fail := false |};
     test_heap := heap_full |}.

(** ** Arithmetic of [size_t] and the caller's objects *)

Lemma size_mul_mod (tgt : abi) (s n : Z) :
  size_mul tgt s n = (s * n) mod 2 ^ size_bits tgt.
Proof.
  unfold size_mul, to_size_t.
  destruct (Z.eq_dec (2 ^ size_bits tgt) 0) as [E | NE].
  - rewrite E. now rewrite !Z.mod_0_r.
  - now rewrite Z.mul_mod_idemp_r.
Qed.

Lemma size_mul_exact (tgt : abi) (s n : Z) :
  0 <= s * n < 2 ^ size_bits tgt -> size_mul tgt s n = s * n.
Proof. intros Hx. rewrite size_mul_mod. now apply Z.mod_small. Qed.


Lemma load_store (m : gmap Z Z) (a v : Z) :
  is_Some (load m a) -> store m a v = Some (<[a := v]> m).
Proof.
  unfold load, store. destruct (decide (a = NULL)) as [E | NE].
  - intros [x Hx]. discriminate.
  - intros [x Hx]. now rewrite Hx.
Qed.

Lemma load_insert (m : gmap Z Z) (a v : Z) :
  a <> NULL -> load (<[a := v]> m) a = Some v.
Proof.
  intros NE. unfold load. destruct (decide (a = NULL)); [done |].
  apply lookup_insert_eq.
Qed.

Lemma load_not_null (m : gmap Z Z) (a : Z) :
  is_Some (load m a) -> a <> NULL.
Proof.
  unfold load. destruct (decide (a = NULL)); [intros [x Hx]; discriminate | done].
Qed.

Section Deriver.
Context {W : Type}.
Variable cpp : cpp_env.
Variable tgt : abi.
Variable be : backend W.
Variables (ptr : expr) (t : ctype).
Hypothesis Hty : type_of ptr = Some (Tpointer t).

Lemma sizeof_pointee : _tgalloc_sizeof tgt ptr = Some (sizeof tgt t).
Proof. unfold _tgalloc_sizeof. simpl. now rewrite Hty. Qed.

Lemma sizeof_n_pointee (n : Z) :
  _tgalloc_sizeof_n tgt ptr (Econst n) = Some (size_mul tgt (sizeof tgt t) n).
Proof. unfold _tgalloc_sizeof_n. now rewrite sizeof_pointee. Qed.

Lemma alignof_pointee :
  _tgalloc_alignof cpp tgt ptr = Some (derived_alignment cpp tgt t).
Proof.
  unfold _tgalloc_alignof, derived_alignment, _tgalloc_typeof, typeof_type.
  destruct (typeof_support cpp); simpl; [now rewrite Hty | done].
Qed.

Lemma typeof_pointer : is_Some (_tgalloc_typeof cpp ptr).
Proof.
  unfold _tgalloc_typeof. destruct (typeof_support cpp); [rewrite Hty |]; eauto.
Qed.

Lemma palloc1_pointee (a : Z) (st : state W) :
  eval_lvalue (st_mem st) ptr = Some a ->
  _tgalloc_palloc1 cpp tgt be ptr st =
    allocate_into be a (derived_alignment cpp tgt t) (sizeof tgt t) st.
Proof.
  intros Ha. unfold _tgalloc_palloc1.
  rewrite alignof_pointee, sizeof_pointee, Ha.
  destruct typeof_pointer as [ty ->]. reflexivity.
Qed.

Lemma palloc2_pointee (a n : Z) (st : state W) :
  eval_lvalue (st_mem st) ptr = Some a ->
  _tgalloc_palloc2 cpp tgt be ptr (Econst n) st =
    allocate_into be a (derived_alignment cpp tgt t)
      (size_mul tgt (sizeof tgt t) n) st.
Proof.
  intros Ha. unfold _tgalloc_palloc2.
  rewrite alignof_pointee, sizeof_n_pointee, Ha.
  destruct typeof_pointer as [ty ->]. reflexivity.
Qed.

Lemma pfree1_pointee (p : Z) (st : state W) :
  eval_rvalue (st_mem st) ptr = Some p ->
  _tgalloc_pfree1 cpp tgt be ptr st =
    release be p (derived_alignment cpp tgt t) (sizeof tgt t) st.
Proof.
  intros Hp. unfold _tgalloc_pfree1.
  now rewrite alignof_pointee, sizeof_pointee, Hp.
Qed.

Lemma pfree2_pointee (p n : Z) (st : state W) :
  eval_rvalue (st_mem st) ptr = Some p ->
  _tgalloc_pfree2 cpp tgt be ptr (Econst n) st =
    release be p (derived_alignment cpp tgt t)
      (size_mul tgt (sizeof tgt t) n) st.
Proof.
  intros Hp. unfold _tgalloc_pfree2.
  now rewrite alignof_pointee, sizeof_n_pointee, Hp.
Qed.
End Deriver.

(** Arity dispatch: no count selects the single-object helper, one count
    the array helper, under either header. *)
Section Dispatch.
Context {W : Type}.
Variable cpp : cpp_env.
Variable tgt : abi.
Variable be : backend W.

Lemma palloc_no_count (ptr : expr) (st : state W) :
  palloc cpp tgt be ptr [] st = _tgalloc_palloc1 cpp tgt be ptr st.
Proof. unfold palloc. now destruct (c23_dispatch cpp). Qed.

Lemma palloc_one_count (ptr len : expr) (st : state W) :
  palloc cpp tgt be ptr [len] st = _tgalloc_palloc2 cpp tgt be ptr len st.
Proof. unfold palloc. now destruct (c23_dispatch cpp). Qed.

Lemma pfree_no_count (ptr : expr) (st : state W) :
  pfree cpp tgt be ptr [] st = _tgalloc_pfree1 cpp tgt be ptr st.
Proof. unfold pfree. now destruct (c23_dispatch cpp). Qed.

Lemma pfree_one_count (ptr len : expr) (st : state W) :
  pfree cpp tgt be ptr [len] st = _tgalloc_pfree2 cpp tgt be ptr len st.
Proof. unfold pfree. now destruct (c23_dispatch cpp). Qed.

(** Two counts or more select no helper. *)
Lemma palloc_more_counts (ptr n1 n2 : expr) (va : list expr) (st : state W) :
  palloc cpp tgt be ptr (n1 :: n2 :: va) st = None.
Proof.
  unfold palloc. now destruct (c23_dispatch cpp).
Qed.
End Dispatch.

(** ** The tests of the repository, run on the embedding *)

(** [alloc_count == 1] and [total_allocated == 10 * sizeof(int)] after the
    allocation; [free_count == 1] and [total_allocated == 0] after the
    release. *)
Example custom_allocator_test_passes :
  custom_allocator_test
  = Some ({| alloc_count := 1; free_count := 0;
             total_allocated := 10 * sizeof LP64 Tint; should_fail := false |},
          {| alloc_count := 1; free_count := 1;
             total_allocated := 0; should_fail := false |}).
Proof. reflexivity. Qed.

(** [ppalloc(&nums)] then [assert(num != NULL)], default backend. *)
Example single_alloc_test_passes :
  fst <$> ppalloc clang_c2x LP64 dflt (Eaddrof nums) []
            {| st_mem := caller_mem; st_world := heap0 |}
  = Some 65536.
Proof. reflexivity. Qed.

(** ** The derived alignment, by compiler *)

Lemma derived_alignment_native (cpp : cpp_env) (tgt : abi) (t : ctype) :
  typeof_support cpp = TypeofNative ->
  alignof_support cpp <> AlignofFallback ->
  derived_alignment cpp tgt t = alignof tgt t.
Proof.
  intros Hn Hf. unfold derived_alignment, typeof_type, _tgalloc_alignof_impl.
  rewrite Hn. now destruct (alignof_support cpp).
Qed.

Lemma derived_alignment_erased (cpp : cpp_env) (tgt : abi) (t : ctype) :
  typeof_support cpp = TypeofErased ->
  derived_alignment cpp tgt t =
    match alignof_support cpp with
    | AlignofFallback => sizeof_ptr tgt
    | _ => alignof_ptr tgt
    end.
Proof.
  intros He. unfold derived_alignment, typeof_type, _tgalloc_alignof_impl.
  rewrite He. destruct (alignof_support cpp); simpl; try reflexivity.
  now rewrite Z.ltb_irrefl.
Qed.


(** A compiler with neither [typeof] nor [alignof] derives the size of a
    pointer for every pointee: [_tgalloc_alignof_impl] is applied to
    [void*]. *)
Example derived_alignment_plain_c99 :
  derived_alignment plain_c99 LP64 Tchar = 8
  /\ derived_alignment plain_c99 LP64 (Tobject 32 16) = 8.
Proof. split; reflexivity. Qed.

(** ** Allocation *)

(** One step of a run that returned: the bound computation returned too. *)
Ltac bind_inv H :=
  match type of H with
  | mbind _ ?c = Some _ =>
      let E := fresh "E" in
      destruct c as [?x |] eqn:E; simpl in H; [| discriminate H]
  | (let '(_, _) := ?x in _) = Some _ => destruct x
  | Some _ = Some _ => injection H as H; subst
  | (_, _) = (_, _) => injection H as H; subst
  end.

Section Allocation.
Context {W : Type}.
Variable cpp : cpp_env.
Variable tgt : abi.
Variable be : backend W.

Lemma allocate_into_result (a al sz p : Z) (w : W) (st : state W) :
  is_Some (load (st_mem st) a) ->
  TGA_ALLOC_A_S be (TGA be) al sz (st_world st) = Some (p, w) ->
  allocate_into be a al sz st = Some (p, assign a p w st).
Proof.
  intros Hl Hc. unfold allocate_into. rewrite Hc. simpl.
  now rewrite (load_store _ _ p Hl).
Qed.

(** [palloc] looks at its first argument through its type and the object
    it designates only. *)
Lemma palloc_same_object (p1 p2 : expr) (va : list expr) (st : state W) :
  type_of p1 = type_of p2 ->
  eval_lvalue (st_mem st) p1 = eval_lvalue (st_mem st) p2 ->
  palloc cpp tgt be p1 va st = palloc cpp tgt be p2 va st.
Proof.
  intros Ht Hl.
  assert (Hal : _tgalloc_alignof cpp tgt p1 = _tgalloc_alignof cpp tgt p2).
  { unfold _tgalloc_alignof, _tgalloc_typeof. simpl. now rewrite Ht. }
  assert (Hsz : _tgalloc_sizeof tgt p1 = _tgalloc_sizeof tgt p2).
  { unfold _tgalloc_sizeof. simpl. now rewrite Ht. }
  assert (Hto : _tgalloc_typeof cpp p1 = _tgalloc_typeof cpp p2).
  { unfold _tgalloc_typeof. now rewrite Ht. }
  destruct va as [| n [| n' va]].
  - rewrite !palloc_no_count. unfold _tgalloc_palloc1.
    now rewrite Hal, Hsz, Hto, Hl.
  - rewrite !palloc_one_count. unfold _tgalloc_palloc2, _tgalloc_sizeof_n.
    now rewrite Hal, Hsz, Hto, Hl.
  - now rewrite !palloc_more_counts.
Qed.

(** A [palloc] that returns has stored the returned pointer in the object
    its first argument designates. *)
Lemma palloc_stores (ptr : expr) (va : list expr) (st st' : state W) (p : Z) :
  palloc cpp tgt be ptr va st = Some (p, st') ->
  exists a, eval_lvalue (st_mem st) ptr = Some a
            /\ store (st_mem st) a p = Some (st_mem st').
Proof.
  destruct va as [| n [| n' va]].
  - rewrite palloc_no_count. unfold _tgalloc_palloc1. intros Hp.
    repeat bind_inv Hp. eauto.
  - rewrite palloc_one_count. unfold _tgalloc_palloc2. intros Hp.
    repeat bind_inv Hp. eauto.
  - now rewrite palloc_more_counts.
Qed.
End Allocation.

Lemma store_load (m m' : gmap Z Z) (a v : Z) :
  store m a v = Some m' -> load m' a = Some v.
Proof.
  unfold store. destruct (decide (a = NULL)) as [E | NE]; [done |].
  destruct (m !! a); [| done]. intros [= <-]. now apply load_insert.
Qed.

(** ** Allocation failure *)

(** C1.  When the backend's allocate answers the null pointer, [palloc]
    (with or without a count) assigns null to the caller's object, has the
    null pointer as its value, leaves every other object of the caller as it
    was and the backend's world as the backend left it; so does [ppalloc]
    when the object is reached through one indirection. *)
Theorem palloc_failure_assigns_null {W : Type} (cpp : cpp_env) (tgt : abi)
    (be : backend W) (ptr : expr) (t : ctype) (a : Z) (st : state W) (w' : W) :
  type_of ptr = Some (Tpointer t) ->
  eval_lvalue (st_mem st) ptr = Some a ->
  is_Some (load (st_mem st) a) ->
  (TGA_ALLOC_A_S be (TGA be) (derived_alignment cpp tgt t) (sizeof tgt t)
     (st_world st) = Some (NULL, w') ->
   palloc cpp tgt be ptr [] st = Some (NULL, assign a NULL w' st)
   /\ forall pptr, ptr = Ederef pptr ->
        ppalloc cpp tgt be pptr [] st = Some (NULL, assign a NULL w' st))
  /\ (forall n : Z,
        TGA_ALLOC_A_S be (TGA be) (derived_alignment cpp tgt t)
          (size_mul tgt (sizeof tgt t) n) (st_world st) = Some (NULL, w') ->
        palloc cpp tgt be ptr [Econst n] st = Some (NULL, assign a NULL w' st)
        /\ forall pptr, ptr = Ederef pptr ->
             ppalloc cpp tgt be pptr [Econst n] st
             = Some (NULL, assign a NULL w' st)).
Proof.
  intros Hty Ha Hl. split.
  - intros Hfail.
    assert (Hp : palloc cpp tgt be ptr [] st = Some (NULL, assign a NULL w' st)).
    { rewrite palloc_no_count, (palloc1_pointee cpp tgt be ptr t Hty a st Ha).
      now apply allocate_into_result. }
    split; [exact Hp |]. intros pptr ->. exact Hp.
  - intros n Hfail.
    assert (Hp : palloc cpp tgt be ptr [Econst n] st
                 = Some (NULL, assign a NULL w' st)).
    { rewrite palloc_one_count, (palloc2_pointee cpp tgt be ptr t Hty a n st Ha).
      now apply allocate_into_result. }
    split; [exact Hp |]. intros pptr ->. exact Hp.
Qed.

(** The test [allocation_failure]: [ppalloc(&nums, 10)] under the failing
    test allocator leaves [nums] null. *)
Lemma palloc_failure_assigns_null_witness :
  ppalloc clang_c2x LP64 (test_backend LP64) (Eaddrof nums) [Econst 10]
    {| st_mem := caller_mem; st_world := failing |}
  = Some (NULL, assign 100 NULL failing
                  {| st_mem := caller_mem; st_world := failing |}).
Proof.
  destruct (palloc_failure_assigns_null clang_c2x LP64 (test_backend LP64)
              (Ederef (Eaddrof nums)) Tint 100
              {| st_mem := caller_mem; st_world := failing |} failing)
    as [_ Harr].
  - reflexivity.
  - reflexivity.
  - exists NULL. reflexivity.
  - destruct (Harr 10) as [_ Hpp].
    + reflexivity.
    + apply Hpp. reflexivity.
Defined.

(** ** The allocate call *)

(** C2, as the code has it.  When [sizeof(T) * n] is representable,
    [palloc(ptr, n)] calls the backend's allocate with that product as size
    and with the alignment [_tgalloc_alignof(ptr)] derives, and assigns the
    returned pointer to the caller's object.  The derived alignment is the
    natural alignment of [T] when the compiler provides both [typeof] and
    an [alignof]. *)
Theorem palloc_array_call {W : Type} (cpp : cpp_env) (tgt : abi)
    (be : backend W) (ptr : expr) (t : ctype) (a n : Z) (st : state W) :
  type_of ptr = Some (Tpointer t) ->
  eval_lvalue (st_mem st) ptr = Some a ->
  0 <= sizeof tgt t * n < 2 ^ size_bits tgt ->
  palloc cpp tgt be ptr [Econst n] st
  = allocate_into be a (derived_alignment cpp tgt t) (sizeof tgt t * n) st
  /\ (forall p w,
        is_Some (load (st_mem st) a) ->
        TGA_ALLOC_A_S be (TGA be) (derived_alignment cpp tgt t)
          (sizeof tgt t * n) (st_world st) = Some (p, w) ->
        palloc cpp tgt be ptr [Econst n] st = Some (p, assign a p w st))
  /\ (typeof_support cpp = TypeofNative ->
      alignof_support cpp <> AlignofFallback ->
      derived_alignment cpp tgt t = alignof tgt t).
Proof.
  intros Hty Ha Hn.
  assert (Hp : palloc cpp tgt be ptr [Econst n] st
               = allocate_into be a (derived_alignment cpp tgt t)
                   (sizeof tgt t * n) st).
  { rewrite palloc_one_count, (palloc2_pointee cpp tgt be ptr t Hty a n st Ha).
    now rewrite size_mul_exact. }
  split; [exact Hp |]. split.
  - intros p w Hl Hc. rewrite Hp. now apply allocate_into_result.
  - apply derived_alignment_native.
Qed.

(** [ppalloc(&nums, 10)] of the tests, on the default backend. *)
Lemma palloc_array_call_witness :
  palloc clang_c2x LP64 dflt nums [Econst 10]
    {| st_mem := caller_mem; st_world := heap0 |}
  = allocate_into dflt 100 (alignof LP64 Tint) 40
      {| st_mem := caller_mem; st_world := heap0 |}.
Proof.
  destruct (palloc_array_call clang_c2x LP64 dflt nums Tint 100 10
              {| st_mem := caller_mem; st_world := heap0 |})
    as [Hp [_ Hal]].
  - reflexivity.
  - reflexivity.
  - simpl. lia.
  - rewrite Hp, Hal.
    + reflexivity.
    + reflexivity.
    + discriminate.
Defined.

(** C2 as stated fails: a C99 compiler with neither [typeof] nor [alignof]
    derives the alignment 8 for a [char*], whose pointee has natural
    alignment 1; the backend receives 8. *)
Lemma palloc_array_alignment_not_natural :
  0 <= sizeof LP64 Tchar * 3 < 2 ^ size_bits LP64
  /\ palloc plain_c99 LP64 (recorder 65536) text [Econst 3]
       {| st_mem := caller_mem; st_world := [] |}
     = Some (65536, assign 300 65536 [Call_alloc NULL 8 3]
                      {| st_mem := caller_mem; st_world := [] |})
  /\ alignof LP64 Tchar = 1
  /\ ~ natural_alignment_call plain_c99 LP64 (recorder 65536) text Tchar 300 3
         {| st_mem := caller_mem; st_world := [] |}.
Proof.
  split; [simpl; lia |].
  split; [reflexivity |]. split; [reflexivity |].
  unfold natural_alignment_call. intros Heq.
  apply (f_equal (fun r => st_world <$> (snd <$> r))) in Heq.
  vm_compute in Heq. discriminate Heq.
Qed.

(** With [typeof] but no [alignof], the size-based fallback: a [Point]
    (two [int]s, natural alignment 4) is requested with alignment 8. *)
Example palloc_array_alignment_size_based :
  palloc msvc_cxx23 LP64 (recorder 65536) (Evar 100 (Tpointer Point))
    [Econst 2] {| st_mem := caller_mem; st_world := [] |}
  = Some (65536, assign 100 65536 [Call_alloc NULL 8 16]
                   {| st_mem := caller_mem; st_world := [] |})
  /\ alignof LP64 Point = 4.
Proof. split; reflexivity. Qed.

(** ** Reallocation *)

Section Reallocation.
Context {W : Type}.
Variable cpp : cpp_env.
Variable tgt : abi.
Variable be : backend W.

Lemma pprealloc_pointee (pptr : expr) (t : ctype) (a p old new : Z)
    (st : state W) :
  type_of pptr = Some (Tpointer (Tpointer t)) ->
  eval_rvalue (st_mem st) pptr = Some a ->
  load (st_mem st) a = Some p ->
  pprealloc cpp tgt be pptr (Econst old) (Econst new) st
  = reallocate_into be a p (derived_alignment cpp tgt t)
      (size_mul tgt (sizeof tgt t) old) (size_mul tgt (sizeof tgt t) new) st.
Proof.
  intros Hty Ha Hl.
  assert (Hin : type_of (Ederef pptr) = Some (Tpointer t))
    by (simpl; now rewrite Hty).
  unfold pprealloc, _tgalloc_realloc2, reallocate_into.
  rewrite (alignof_pointee cpp tgt _ t Hin), !(sizeof_n_pointee tgt _ t Hin).
  simpl. rewrite Ha. simpl. rewrite Hl. simpl.
  now destruct (TGA_REALLOC_A_S be (TGA be) p _ _ _ (st_world st)) as [[q w] |].
Qed.

Lemma reallocate_into_result (a p al so sn q : Z) (w : W) (st : state W) :
  is_Some (load (st_mem st) a) ->
  TGA_REALLOC_A_S be (TGA be) p al so sn (st_world st) = Some (q, w) ->
  reallocate_into be a p al so sn st = Some (q, assign a q w st).
Proof.
  intros Hl Hc. unfold reallocate_into. rewrite Hc. simpl.
  now rewrite (load_store _ _ q Hl).
Qed.
End Reallocation.

(** C3.  [pprealloc(pptr, old, new)] calls the backend's reallocate on the
    pointer held in [*pptr], with old size [sizeof(T) * old] and new size
    [sizeof(T) * new] taken in [size_t], [T] being the element type [pptr]
    refers to, and assigns what reallocate returns to [*pptr].  The sizes
    are the exact products whenever these are representable. *)
Theorem pprealloc_call {W : Type} (cpp : cpp_env) (tgt : abi) (be : backend W)
    (pptr : expr) (t : ctype) (a p old new : Z) (st : state W) :
  type_of pptr = Some (Tpointer (Tpointer t)) ->
  eval_rvalue (st_mem st) pptr = Some a ->
  load (st_mem st) a = Some p ->
  pprealloc cpp tgt be pptr (Econst old) (Econst new) st
  = reallocate_into be a p (derived_alignment cpp tgt t)
      (size_mul tgt (sizeof tgt t) old) (size_mul tgt (sizeof tgt t) new) st
  /\ (forall q w,
        TGA_REALLOC_A_S be (TGA be) p (derived_alignment cpp tgt t)
          (size_mul tgt (sizeof tgt t) old) (size_mul tgt (sizeof tgt t) new)
          (st_world st) = Some (q, w) ->
        pprealloc cpp tgt be pptr (Econst old) (Econst new) st
        = Some (q, assign a q w st)
        /\ load (st_mem (assign a q w st)) a = Some q)
  /\ (0 <= sizeof tgt t * old < 2 ^ size_bits tgt ->
      size_mul tgt (sizeof tgt t) old = sizeof tgt t * old)
  /\ (0 <= sizeof tgt t * new < 2 ^ size_bits tgt ->
      size_mul tgt (sizeof tgt t) new = sizeof tgt t * new).
Proof.
  intros Hty Ha Hl.
  pose proof (pprealloc_pointee cpp tgt be pptr t a p old new st Hty Ha Hl)
    as Hp.
  assert (Hs : is_Some (load (st_mem st) a)) by (rewrite Hl; eauto).
  split; [exact Hp |]. split; [| split; apply size_mul_exact].
  intros q w Hc. split.
  - rewrite Hp. now apply reallocate_into_result.
  - simpl. apply load_insert. now apply (load_not_null (st_mem st)).
Qed.

(** [pprealloc(&nums, 5, 10)] of the test [array_realloc], recorded. *)
Lemma pprealloc_call_witness :
  pprealloc clang_c2x LP64 (recorder 65600) (Eaddrof nums)
    (Econst 5) (Econst 10) {| st_mem := holder_mem; st_world := [] |}
  = Some (65600, assign 100 65600 [Call_realloc NULL 65536 4 20 40]
                   {| st_mem := holder_mem; st_world := [] |}).
Proof.
  destruct (pprealloc_call clang_c2x LP64 (recorder 65600) (Eaddrof nums)
              Tint 100 65536 5 10 {| st_mem := holder_mem; st_world := [] |})
    as [_ [Hres _]].
  - reflexivity.
  - reflexivity.
  - reflexivity.
  - destruct (Hres 65600 [Call_realloc NULL 65536 4 20 40]) as [Hp _].
    + reflexivity.
    + exact Hp.
Defined.

(** C4.  When the backend's reallocate answers the null pointer,
    [pprealloc] assigns that null pointer to [*pptr]: the object no longer
    holds the pointer it held, whatever the backend did with the region (the
    world is the one the backend left). *)
Theorem pprealloc_failure_overwrites {W : Type} (cpp : cpp_env) (tgt : abi)
    (be : backend W) (pptr : expr) (t : ctype) (a p old new : Z)
    (st : state W) (w' : W) :
  type_of pptr = Some (Tpointer (Tpointer t)) ->
  eval_rvalue (st_mem st) pptr = Some a ->
  load (st_mem st) a = Some p ->
  TGA_REALLOC_A_S be (TGA be) p (derived_alignment cpp tgt t)
    (size_mul tgt (sizeof tgt t) old) (size_mul tgt (sizeof tgt t) new)
    (st_world st) = Some (NULL, w') ->
  exists st',
    pprealloc cpp tgt be pptr (Econst old) (Econst new) st = Some (NULL, st')
    /\ load (st_mem st') a = Some NULL
    /\ (p <> NULL -> load (st_mem st') a <> Some p)
    /\ st_world st' = w'.
Proof.
  intros Hty Ha Hl Hfail. exists (assign a NULL w' st).
  assert (Hs : is_Some (load (st_mem st) a)) by (rewrite Hl; eauto).
  assert (Hn : load (st_mem (assign a NULL w' st)) a = Some NULL).
  { simpl. apply load_insert. now apply (load_not_null (st_mem st)). }
  split; [| split; [exact Hn | split; [| reflexivity]]].
  - rewrite (pprealloc_pointee cpp tgt be pptr t a p old new st Hty Ha Hl).
    now apply reallocate_into_result.
  - intros Hp. rewrite Hn. intros [= E]. now apply Hp.
Qed.

(** The default backend out of room: [realloc] fails and leaves the block
    of five [int]s live, yet [nums] is null after [pprealloc(&nums, 5, 10)]. *)
Lemma pprealloc_failure_overwrites_witness :
  blocks heap_full !! 65536 = Some 20
  /\ exists st',
       pprealloc clang_c2x LP64 dflt (Eaddrof nums) (Econst 5) (Econst 10)
         {| st_mem := holder_mem; st_world := heap_full |} = Some (NULL, st')
       /\ load (st_mem st') 100 = Some NULL
       /\ (65536 <> NULL -> load (st_mem st') 100 <> Some 65536)
       /\ st_world st' = heap_full.
Proof.
  split; [reflexivity |].
  apply (pprealloc_failure_overwrites clang_c2x LP64 dflt (Eaddrof nums)
           Tint 100 65536 5 10
           {| st_mem := holder_mem; st_world := heap_full |} heap_full).
  - reflexivity.
  - reflexivity.
  - reflexivity.
  - reflexivity.
Defined.

(** ** The alignment fallback *)




(** ** Arity dispatch and indirection *)



(** C7.  [ppalloc(pptr, ...)] is [palloc] applied to [*pptr] with the same
    counts, and so behaves as [palloc] on any reference to the object [pptr]
    points to: same backend call, same outcome; when it returns, the object
    [pptr] points to holds the returned pointer. *)
Theorem ppalloc_is_palloc_on_inner {W : Type} (cpp : cpp_env) (tgt : abi)
    (be : backend W) (pptr inner : expr) (va : list expr) (st : state W) :
  type_of inner = type_of (Ederef pptr) ->
  eval_lvalue (st_mem st) inner = eval_rvalue (st_mem st) pptr ->
  ppalloc cpp tgt be pptr va st = palloc cpp tgt be (Ederef pptr) va st
  /\ ppalloc cpp tgt be pptr va st = palloc cpp tgt be inner va st
  /\ forall p st' a,
       ppalloc cpp tgt be pptr va st = Some (p, st') ->
       eval_rvalue (st_mem st) pptr = Some a ->
       load (st_mem st') a = Some p.
Proof.
  intros Hty Hl. split; [reflexivity |]. split.
  - unfold ppalloc. symmetry. now apply palloc_same_object.
  - intros p st' a Hp Ha. unfold ppalloc in Hp.
    destruct (palloc_stores cpp tgt be _ _ _ _ _ Hp) as [a' [Ha' Hs]].
    simpl in Ha'. rewrite Ha in Ha'. injection Ha' as <-.
    exact (store_load _ _ _ _ Hs).
Qed.

(** The out-parameter of the README: with [int** out = &nums],
    [ppalloc(out, 10)] is [palloc(nums, 10)]. *)
Lemma ppalloc_is_palloc_on_inner_witness :
  ppalloc clang_c2x LP64 dflt out [Econst 10]
    {| st_mem := caller_mem; st_world := heap0 |}
  = palloc clang_c2x LP64 dflt nums [Econst 10]
      {| st_mem := caller_mem; st_world := heap0 |}.
Proof.
  apply (ppalloc_is_palloc_on_inner clang_c2x LP64 dflt out nums
           [Econst 10] {| st_mem := caller_mem; st_world := heap0 |}).
  - reflexivity.
  - reflexivity.
Defined.

(** ** The default backend *)

(** C8.  Under the default backend, [pfree] of a null pointer, with any
    count or none, returns and leaves the caller's objects and the heap as
    they were. *)
Theorem pfree_null_is_noop {H : Type} `{!LibC H} (cpp : cpp_env) (tgt : abi)
    (ptr : expr) (t : ctype) (st : state H) :
  type_of ptr = Some (Tpointer t) ->
  eval_rvalue (st_mem st) ptr = Some NULL ->
  pfree cpp tgt dflt ptr [] st = Some st
  /\ forall n : Z, pfree cpp tgt dflt ptr [Econst n] st = Some st.
Proof.
  intros Hty Hp. destruct st as [m h]. split.
  - rewrite pfree_no_count, (pfree1_pointee cpp tgt dflt ptr t Hty NULL _ Hp).
    unfold release. simpl. unfold _tgalloc_dflt_free_aligned_sized.
    now rewrite free_NULL.
  - intros n.
    rewrite pfree_one_count, (pfree2_pointee cpp tgt dflt ptr t Hty NULL n _ Hp).
    unfold release. simpl. unfold _tgalloc_dflt_free_aligned_sized.
    now rewrite free_NULL.
Qed.

Lemma pfree_null_is_noop_witness :
  pfree clang_c2x LP64 dflt nums []
    {| st_mem := caller_mem; st_world := heap_full |}
  = Some {| st_mem := caller_mem; st_world := heap_full |}
  /\ pfree plain_c99 LP64 dflt nums [Econst 10]
       {| st_mem := caller_mem; st_world := heap_full |}
     = Some {| st_mem := caller_mem; st_world := heap_full |}.
Proof.
  split.
  - apply (pfree_null_is_noop clang_c2x LP64 nums Tint
             {| st_mem := caller_mem; st_world := heap_full |}).
    + reflexivity.
    + reflexivity.
  - apply (pfree_null_is_noop plain_c99 LP64 nums Tint
             {| st_mem := caller_mem; st_world := heap_full |}).
    + reflexivity.
    + reflexivity.
Defined.

(** C9.  The default allocate returns what [malloc(size)] returns, for
    every instance handle and every alignment: these two arguments have no
    effect on the result. *)
Theorem dflt_alloc_is_malloc {H : Type} `{!LibC H}
    (self alignment size : Z) (h : H) :
  TGA_ALLOC_A_S dflt self alignment size h = Some (malloc size h)
  /\ forall self' alignment' : Z,
       TGA_ALLOC_A_S dflt self' alignment' size h
       = TGA_ALLOC_A_S dflt self alignment size h.
Proof. split; [reflexivity | intros; reflexivity]. Qed.

Lemma dflt_alloc_is_malloc_witness :
  TGA_ALLOC_A_S dflt NULL 16 40 heap0 = Some (heap_malloc 40 heap0)
  /\ TGA_ALLOC_A_S dflt 4096 1 40 heap0 = TGA_ALLOC_A_S dflt NULL 16 40 heap0.
Proof.
  destruct (dflt_alloc_is_malloc NULL 16 40 heap0) as [Hm Hsame].
  split; [exact Hm | exact (Hsame 4096 1)].
Defined.

(** ** Counts are not validated *)

(** C10.  Whatever integer the caller passes as count, [palloc(ptr, n)] and
    [pfree(ptr, n)] pass to the backend the size [sizeof(T) * n] reduced
    modulo [2 ^ size_bits]; nothing else depends on [n], and the facade
    fails only where the backend or the caller's reference does. *)
Theorem count_is_not_validated {W : Type} (cpp : cpp_env) (tgt : abi)
    (be : backend W) (ptr : expr) (t : ctype) (n : Z) (st : state W) :
  type_of ptr = Some (Tpointer t) ->
  _tgalloc_sizeof_n tgt ptr (Econst n)
  = Some ((sizeof tgt t * n) mod 2 ^ size_bits tgt)
  /\ (forall a, eval_lvalue (st_mem st) ptr = Some a ->
        palloc cpp tgt be ptr [Econst n] st
        = allocate_into be a (derived_alignment cpp tgt t)
            ((sizeof tgt t * n) mod 2 ^ size_bits tgt) st)
  /\ (forall p, eval_rvalue (st_mem st) ptr = Some p ->
        pfree cpp tgt be ptr [Econst n] st
        = release be p (derived_alignment cpp tgt t)
            ((sizeof tgt t * n) mod 2 ^ size_bits tgt) st).
Proof.
  intros Hty. rewrite <- size_mul_mod. split; [| split].
  - now apply sizeof_n_pointee.
  - intros a Ha. rewrite palloc_one_count. now apply palloc2_pointee.
  - intros p Hp. rewrite pfree_one_count. now apply pfree2_pointee.
Qed.

(** [palloc(nums, n)] with [n = 2^62 + 1]: [4 * n] wraps to 4, and the
    backend is asked for 4 bytes. *)
Lemma count_is_not_validated_witness :
  palloc clang_c2x LP64 (recorder 65536) nums [Econst (2 ^ 62 + 1)]
    {| st_mem := caller_mem; st_world := [] |}
  = Some (65536, assign 100 65536 [Call_alloc NULL 4 4]
                   {| st_mem := caller_mem; st_world := [] |}).
Proof.
  destruct (count_is_not_validated clang_c2x LP64 (recorder 65536) nums Tint
              (2 ^ 62 + 1) {| st_mem := caller_mem; st_world := [] |})
    as [_ [Hp _]].
  - reflexivity.
  - rewrite (Hp 100 eq_refl). reflexivity.
Defined.

(** A negative count: [pfree(nums, -1)] passes [2^64 - 4]. *)
Lemma pfree_negative_count :
  pfree clang_c2x LP64 (recorder 0) nums [Econst (-1)]
    {| st_mem := holder_mem; st_world := [] |}
  = Some {| st_mem := holder_mem;
            st_world := [Call_free NULL 65536 4 (2 ^ 64 - 4)] |}.
Proof. reflexivity. Qed.

(** ** The macros on every argument *)

(** What each helper does whatever its arguments are: nothing unless the
    first argument is a pointer to a complete type and the counts are
    integers. *)
Section Total.
Context {W : Type}.
Variable cpp : cpp_env.
Variable tgt : abi.
Variable be : backend W.

Lemma palloc1_total (ptr : expr) (st : state W) :
  _tgalloc_palloc1 cpp tgt be ptr st =
    match type_of ptr with
    | Some (Tpointer t) =>
        a ← eval_lvalue (st_mem st) ptr;
        allocate_into be a (derived_alignment cpp tgt t) (sizeof tgt t) st
    | _ => None
    end.
Proof.
  unfold _tgalloc_palloc1, _tgalloc_alignof, _tgalloc_sizeof, _tgalloc_typeof,
    derived_alignment, typeof_type.
  simpl. destruct (type_of ptr) as [[s al | t |] |];
    destruct (typeof_support cpp); reflexivity.
Qed.

Lemma palloc2_total (ptr len : expr) (st : state W) :
  _tgalloc_palloc2 cpp tgt be ptr len st =
    match type_of ptr with
    | Some (Tpointer t) =>
        n ← eval_count len;
        a ← eval_lvalue (st_mem st) ptr;
        allocate_into be a (derived_alignment cpp tgt t)
          (size_mul tgt (sizeof tgt t) n) st
    | _ => None
    end.
Proof.
  unfold _tgalloc_palloc2, _tgalloc_alignof, _tgalloc_sizeof_n,
    _tgalloc_sizeof, _tgalloc_typeof, derived_alignment, typeof_type.
  simpl. destruct (type_of ptr) as [[s al | t |] |];
    destruct (typeof_support cpp); simpl;
    try reflexivity; destruct (eval_count len); reflexivity.
Qed.

Lemma pfree1_total (ptr : expr) (st : state W) :
  _tgalloc_pfree1 cpp tgt be ptr st =
    match type_of ptr with
    | Some (Tpointer t) =>
        p ← eval_rvalue (st_mem st) ptr;
        release be p (derived_alignment cpp tgt t) (sizeof tgt t) st
    | _ => None
    end.
Proof.
  unfold _tgalloc_pfree1, _tgalloc_alignof, _tgalloc_sizeof, _tgalloc_typeof,
    derived_alignment, typeof_type.
  simpl. destruct (type_of ptr) as [[s al | t |] |];
    destruct (typeof_support cpp); reflexivity.
Qed.

Lemma pfree2_total (ptr len : expr) (st : state W) :
  _tgalloc_pfree2 cpp tgt be ptr len st =
    match type_of ptr with
    | Some (Tpointer t) =>
        n ← eval_count len;
        p ← eval_rvalue (st_mem st) ptr;
        release be p (derived_alignment cpp tgt t)
          (size_mul tgt (sizeof tgt t) n) st
    | _ => None
    end.
Proof.
  unfold _tgalloc_pfree2, _tgalloc_alignof, _tgalloc_sizeof_n,
    _tgalloc_sizeof, _tgalloc_typeof, derived_alignment, typeof_type.
  simpl. destruct (type_of ptr) as [[s al | t |] |];
    destruct (typeof_support cpp); simpl;
    try reflexivity; destruct (eval_count len); reflexivity.
Qed.

Lemma pprealloc_total (pptr old_len new_len : expr) (st : state W) :
  pprealloc cpp tgt be pptr old_len new_len st =
    match type_of pptr with
    | Some (Tpointer (Tpointer t)) =>
        a ← eval_rvalue (st_mem st) pptr;
        o ← eval_count old_len;
        n ← eval_count new_len;
        p ← load (st_mem st) a;
        reallocate_into be a p (derived_alignment cpp tgt t)
          (size_mul tgt (sizeof tgt t) o) (size_mul tgt (sizeof tgt t) n) st
    | _ => None
    end.
Proof.
  unfold pprealloc, _tgalloc_realloc2, _tgalloc_alignof, _tgalloc_sizeof_n,
    _tgalloc_sizeof, _tgalloc_typeof, derived_alignment, typeof_type,
    reallocate_into.
  simpl.
  destruct (eval_rvalue (st_mem st) pptr) as [a |]; simpl.
  - destruct (type_of pptr) as [[s al | [s al | t |] |] |];
      destruct (typeof_support cpp); simpl; try reflexivity;
      destruct (eval_count old_len); simpl; try reflexivity;
      destruct (eval_count new_len); simpl; try reflexivity;
      destruct (load (st_mem st) a); simpl; try reflexivity;
      now destruct (TGA_REALLOC_A_S be (TGA be) _ _ _ _ (st_world st))
        as [[q w] |].
  - now destruct (type_of pptr) as [[s al | [s al | t |] |] |].
Qed.

Lemma pfree_more_counts (ptr n1 n2 : expr) (va : list expr) (st : state W) :
  pfree cpp tgt be ptr (n1 :: n2 :: va) st = None.
Proof. unfold pfree. now destruct (c23_dispatch cpp). Qed.
End Total.

Lemma store_inv (m m' : gmap Z Z) (a v : Z) :
  store m a v = Some m' ->
  a <> NULL /\ is_Some (m !! a) /\ m' = <[a := v]> m.
Proof.
  unfold store. destruct (decide (a = NULL)) as [E | NE]; [done |].
  destruct (m !! a) as [x |]; [| done]. intros [= <-]. eauto.
Qed.

(** ** What the facade writes and what it leaves alone *)

(** X1.  A [pfree] that returns made one call of the backend's free, on the
    value its argument held, and wrote none of the caller's objects: the
    pointer still holds the address that was released. *)
Theorem pfree_keeps_caller_objects {W : Type} (cpp : cpp_env) (tgt : abi)
    (be : backend W) (ptr : expr) (va : list expr) (st st' : state W) :
  pfree cpp tgt be ptr va st = Some st' ->
  st_mem st' = st_mem st
  /\ exists p al sz,
       eval_rvalue (st_mem st') ptr = Some p
       /\ TGA_FREE_A_S be (TGA be) p al sz (st_world st) = Some (st_world st').
Proof.
  destruct va as [| n [| n' va]].
  - rewrite pfree_no_count. unfold _tgalloc_pfree1. intros Hp.
    repeat bind_inv Hp. simpl. eauto 6.
  - rewrite pfree_one_count. unfold _tgalloc_pfree2. intros Hp.
    repeat bind_inv Hp. simpl. eauto 6.
  - now rewrite pfree_more_counts.
Qed.

(** [pfree(nums, 5)] on the default backend: the block is gone from the
    heap and [nums] still holds its address. *)
Lemma pfree_keeps_caller_objects_witness :
  st_mem {| st_mem := holder_mem;
            st_world := {| blocks := ∅; brk := 65556; heap_end := 65560 |} |}
  = holder_mem
  /\ exists p al sz,
       eval_rvalue holder_mem nums = Some p
       /\ TGA_FREE_A_S dflt (TGA dflt) p al sz heap_full
          = Some {| blocks := ∅; brk := 65556; heap_end := 65560 |}.
Proof.
  apply (pfree_keeps_caller_objects clang_c2x LP64 dflt nums [Econst 5]
           {| st_mem := holder_mem; st_world := heap_full |}
           {| st_mem := holder_mem;
              st_world := {| blocks := ∅; brk := 65556;
                             heap_end := 65560 |} |}).
  reflexivity.
Defined.

(** X2.  A [palloc] that returns has overwritten exactly one object of the
    caller, the one its first argument designates, with the pointer it
    returns; every other object holds what it held. *)
Theorem palloc_writes_one_object {W : Type} (cpp : cpp_env) (tgt : abi)
    (be : backend W) (ptr : expr) (va : list expr) (st st' : state W) (p : Z) :
  palloc cpp tgt be ptr va st = Some (p, st') ->
  exists a,
    eval_lvalue (st_mem st) ptr = Some a
    /\ a <> NULL
    /\ st_mem st' = <[a := p]> (st_mem st)
    /\ load (st_mem st') a = Some p
    /\ forall b, b <> a -> st_mem st' !! b = st_mem st !! b.
Proof.
  intros Hp.
  destruct (palloc_stores cpp tgt be ptr va st st' p Hp) as [a [Ha Hs]].
  destruct (store_inv _ _ _ _ Hs) as [NE [_ Hm]].
  exists a. split; [exact Ha |]. split; [exact NE |]. split; [exact Hm |].
  split.
  - exact (store_load _ _ _ _ Hs).
  - intros b Hb. rewrite Hm. apply lookup_insert_ne. congruence.
Qed.

(** [ppalloc(out, 2)]: [nums] now holds the block, [out] and [text] are as
    they were. *)
Lemma palloc_writes_one_object_witness :
  exists a,
    eval_lvalue (st_mem {| st_mem := caller_mem; st_world := heap0 |})
      (Ederef out) = Some a
    /\ a <> NULL
    /\ st_mem {| st_mem := <[100 := 65536]> caller_mem;
                 st_world := snd (heap_malloc 8 heap0) |}
       = <[a := 65536]> (st_mem {| st_mem := caller_mem; st_world := heap0 |})
    /\ load (st_mem {| st_mem := <[100 := 65536]> caller_mem;
                       st_world := snd (heap_malloc 8 heap0) |}) a
       = Some 65536
    /\ forall b, b <> a ->
         st_mem {| st_mem := <[100 := 65536]> caller_mem;
                   st_world := snd (heap_malloc 8 heap0) |} !! b
         = st_mem {| st_mem := caller_mem; st_world := heap0 |} !! b.
Proof.
  apply (palloc_writes_one_object gcc_c17 LP64 dflt (Ederef out) [Econst 2]
           {| st_mem := caller_mem; st_world := heap0 |}
           {| st_mem := <[100 := 65536]> caller_mem;
              st_world := snd (heap_malloc 8 heap0) |} 65536).
  reflexivity.
Defined.

(** X3.  A [pprealloc] that returns read the pointer held in [*pptr],
    passed it to the backend's reallocate, and overwrote [*pptr], and no
    other object of the caller, with the pointer it returns. *)
Theorem pprealloc_writes_one_object {W : Type} (cpp : cpp_env) (tgt : abi)
    (be : backend W) (pptr old_len new_len : expr) (st st' : state W) (q : Z) :
  pprealloc cpp tgt be pptr old_len new_len st = Some (q, st') ->
  exists a p al so sn,
    eval_rvalue (st_mem st) pptr = Some a
    /\ load (st_mem st) a = Some p
    /\ TGA_REALLOC_A_S be (TGA be) p al so sn (st_world st)
       = Some (q, st_world st')
    /\ st_mem st' = <[a := q]> (st_mem st)
    /\ forall b, b <> a -> st_mem st' !! b = st_mem st !! b.
Proof.
  rewrite pprealloc_total. intros Hp.
  destruct (type_of pptr) as [[s al | [s al | t |] |] |]; try discriminate Hp.
  unfold reallocate_into in Hp. repeat bind_inv Hp.
  match goal with
  | Hs : store _ _ _ = Some _ |- _ =>
      destruct (store_inv _ _ _ _ Hs) as [NE [_ Hm]]
  end.
  simpl. do 5 eexists. split; [reflexivity |]. split; [eassumption |].
  split; [eassumption |]. split; [exact Hm |].
  intros b Hb. rewrite Hm. apply lookup_insert_ne. congruence.
Qed.

Lemma pprealloc_writes_one_object_witness :
  exists a p al so sn,
    eval_rvalue (st_mem {| st_mem := holder_mem; st_world := @nil call |}) out
    = Some a
    /\ load (st_mem {| st_mem := holder_mem; st_world := @nil call |}) a = Some p
    /\ TGA_REALLOC_A_S (recorder 65600) (TGA (recorder 65600)) p al so sn
         (st_world {| st_mem := holder_mem; st_world := @nil call |})
       = Some (65600,
               st_world (assign 100 65600 [Call_realloc NULL 65536 4 20 40]
                           {| st_mem := holder_mem; st_world := @nil call |}))
    /\ st_mem (assign 100 65600 [Call_realloc NULL 65536 4 20 40]
                 {| st_mem := holder_mem; st_world := @nil call |})
       = <[a := 65600]> (st_mem {| st_mem := holder_mem; st_world := @nil call |})
    /\ forall b, b <> a ->
         st_mem (assign 100 65600 [Call_realloc NULL 65536 4 20 40]
                   {| st_mem := holder_mem; st_world := @nil call |}) !! b
         = st_mem {| st_mem := holder_mem; st_world := @nil call |} !! b.
Proof.
  apply (pprealloc_writes_one_object clang_c2x LP64 (recorder 65600) out
           (Econst 5) (Econst 10) {| st_mem := holder_mem; st_world := @nil call |}
           (assign 100 65600 [Call_realloc NULL 65536 4 20 40]
              {| st_mem := holder_mem; st_world := @nil call |}) 65600).
  reflexivity.
Defined.

(** ** Arity dispatch on every argument list *)


(** X5.  Which of the two dispatch headers is included does not matter:
    two compilers that agree on [typeof] and on [alignof] give [palloc],
    [pfree], [ppalloc] and [pprealloc] the same behaviour on all arguments. *)
Theorem dispatch_header_is_irrelevant {W : Type} (c1 c2 : cpp_env) (tgt : abi)
    (be : backend W) (ptr : expr) (va : list expr) (st : state W) :
  typeof_support c1 = typeof_support c2 ->
  alignof_support c1 = alignof_support c2 ->
  palloc c1 tgt be ptr va st = palloc c2 tgt be ptr va st
  /\ pfree c1 tgt be ptr va st = pfree c2 tgt be ptr va st
  /\ ppalloc c1 tgt be ptr va st = ppalloc c2 tgt be ptr va st
  /\ forall old_len new_len,
       pprealloc c1 tgt be ptr old_len new_len st
       = pprealloc c2 tgt be ptr old_len new_len st.
Proof.
  intros Ht Ha.
  assert (Hd : forall t, derived_alignment c1 tgt t = derived_alignment c2 tgt t).
  { intros t. unfold derived_alignment, typeof_type, _tgalloc_alignof_impl.
    now rewrite Ht, Ha. }
  assert (Hp : forall e, palloc c1 tgt be e va st = palloc c2 tgt be e va st).
  { intros e. destruct va as [| n [| n' va']].
    - rewrite !palloc_no_count, !palloc1_total.
      destruct (type_of e) as [[s al | t |] |]; try reflexivity.
      now rewrite Hd.
    - rewrite !palloc_one_count, !palloc2_total.
      destruct (type_of e) as [[s al | t |] |]; try reflexivity.
      now rewrite Hd.
    - now rewrite !palloc_more_counts. }
  split; [apply Hp |]. split; [| split; [apply Hp |]].
  - destruct va as [| n [| n' va']].
    + rewrite !pfree_no_count, !pfree1_total.
      destruct (type_of ptr) as [[s al | t |] |]; try reflexivity.
      now rewrite Hd.
    + rewrite !pfree_one_count, !pfree2_total.
      destruct (type_of ptr) as [[s al | t |] |]; try reflexivity.
      now rewrite Hd.
    + now rewrite !pfree_more_counts.
  - intros old_len new_len. rewrite !pprealloc_total.
    destruct (type_of ptr) as [[s al | [s al | t |] |] |]; try reflexivity.
    now rewrite Hd.
Qed.

(** [gcc -std=c17] includes [__tgalloc_c99.h], [clang -std=c2x] includes
    [__tgalloc_c23.h]. *)
Lemma dispatch_header_is_irrelevant_witness :
  c23_dispatch gcc_c17 = false
  /\ c23_dispatch clang_c2x = true
  /\ palloc gcc_c17 LP64 (recorder 65536) nums [Econst 10]
       {| st_mem := caller_mem; st_world := [] |}
     = palloc clang_c2x LP64 (recorder 65536) nums [Econst 10]
         {| st_mem := caller_mem; st_world := [] |}.
Proof.
  split; [reflexivity |]. split; [reflexivity |].
  apply (dispatch_header_is_irrelevant gcc_c17 clang_c2x LP64 (recorder 65536)
           nums [Econst 10] {| st_mem := caller_mem; st_world := [] |}).
  - reflexivity.
  - reflexivity.
Defined.

(** ** The two [#if] chains together *)

Lemma defined_ge_c23_c11 (m : option Z) :
  defined_ge m 202000 = true -> defined_ge m 201112 = true.
Proof.
  destruct m as [x |]; simpl; [| done].
  intros Hx. apply Z.leb_le in Hx. apply Z.leb_le. lia.
Qed.

(** X6.  On a compiler without [typeof] the alignment the facade derives
    does not depend on its argument at all: it is the alignment of [void*]
    where there is an [alignof], the size of [void*] otherwise. *)
Theorem erased_typeof_alignment (cpp : cpp_env) (tgt : abi) (ptr : expr) :
  typeof_support cpp = TypeofErased ->
  _tgalloc_alignof cpp tgt ptr
  = Some (match alignof_support cpp with
          | AlignofFallback => sizeof_ptr tgt
          | _ => alignof_ptr tgt
          end).
Proof.
  intros He. unfold _tgalloc_alignof, _tgalloc_typeof, _tgalloc_alignof_impl.
  rewrite He. simpl. destruct (alignof_support cpp); try reflexivity.
  now rewrite Z.ltb_irrefl.
Qed.

(** A 16-aligned vector type and [char] both get 8 from a plain C99
    compiler. *)
Lemma erased_typeof_alignment_witness :
  _tgalloc_alignof plain_c99 LP64 (Evar 100 (Tpointer (Tobject 16 16)))
  = Some 8
  /\ _tgalloc_alignof plain_c99 LP64 text = Some 8.
Proof.
  split.
  - apply (erased_typeof_alignment plain_c99 LP64
             (Evar 100 (Tpointer (Tobject 16 16)))).
    reflexivity.
  - apply (erased_typeof_alignment plain_c99 LP64 text). reflexivity.
Defined.

(** X7.  Where the size-based fallback of [_tgalloc_alignof_impl] is in
    force, [typeof] is missing too unless the compiler is MSVC with
    [_MSVC_LANG >= 202000L]; so the fallback is applied to [void*] and the
    facade passes the size of a pointer as alignment for every type. *)
Theorem size_based_fallback_sees_void_pointer (cpp : cpp_env) (tgt : abi)
    (ptr : expr) :
  alignof_support cpp = AlignofFallback ->
  MSC_VER cpp && defined_ge (MSVC_LANG cpp) 202000 = false ->
  typeof_support cpp = TypeofErased
  /\ _tgalloc_alignof cpp tgt ptr = Some (sizeof_ptr tgt).
Proof.
  intros Hf Hm.
  assert (He : typeof_support cpp = TypeofErased).
  { unfold alignof_support in Hf. unfold typeof_support.
    destruct (defined_ge (STDC_VERSION cpp) 202000) eqn:E23.
    - now rewrite (defined_ge_c23_c11 _ E23) in Hf.
    - destruct (defined_ge (STDC_VERSION cpp) 201112); [discriminate Hf |].
      destruct (GNUC cpp || CLANG cpp); [discriminate Hf |].
      now rewrite Hm. }
  split; [exact He |].
  unfold _tgalloc_alignof, _tgalloc_typeof, _tgalloc_alignof_impl.
  rewrite He, Hf. simpl. now rewrite Z.ltb_irrefl.
Qed.

Lemma size_based_fallback_sees_void_pointer_witness :
  typeof_support plain_c99 = TypeofErased
  /\ _tgalloc_alignof plain_c99 LP64 text = Some (sizeof_ptr LP64).
Proof.
  apply (size_based_fallback_sees_void_pointer plain_c99 LP64 text).
  - reflexivity.
  - reflexivity.
Defined.

(** X8.  Where [__tgalloc_c23.h] is the header included, [typeof] and
    [alignof] are both the compiler's own, and the alignment derived for a
    pointer is the natural alignment of its pointee. *)
Theorem c23_alignment_is_natural (cpp : cpp_env) (tgt : abi)
    (ptr : expr) (t : ctype) :
  c23_dispatch cpp = true ->
  type_of ptr = Some (Tpointer t) ->
  typeof_support cpp = TypeofNative
  /\ alignof_support cpp = AlignofC11
  /\ _tgalloc_alignof cpp tgt ptr = Some (alignof tgt t).
Proof.
  unfold c23_dispatch. intros H23 Hty.
  assert (Hn : typeof_support cpp = TypeofNative)
    by (unfold typeof_support; now rewrite H23).
  assert (Ha : alignof_support cpp = AlignofC11)
    by (unfold alignof_support; now rewrite (defined_ge_c23_c11 _ H23)).
  split; [exact Hn |]. split; [exact Ha |].
  unfold _tgalloc_alignof, _tgalloc_typeof, _tgalloc_alignof_impl.
  rewrite Hn, Ha. simpl. now rewrite Hty.
Qed.

Lemma c23_alignment_is_natural_witness :
  typeof_support clang_c2x = TypeofNative
  /\ alignof_support clang_c2x = AlignofC11
  /\ _tgalloc_alignof clang_c2x LP64 (Evar 100 (Tpointer Point))
     = Some (alignof LP64 Point).
Proof.
  apply (c23_alignment_is_natural clang_c2x LP64
           (Evar 100 (Tpointer Point)) Point).
  - reflexivity.
  - reflexivity.
Defined.

(** ** What the default backend ignores *)

Section DefaultIgnores.
Context {H : Type} `{!LibC H}.

(** X9.  Under the default backend the count given to [pfree] has no
    effect: [pfree(ptr, n)] behaves as [pfree(ptr)] for every integer [n]. *)
Theorem dflt_pfree_ignores_count (cpp : cpp_env) (tgt : abi) (ptr : expr)
    (n : Z) (st : state H) :
  pfree cpp tgt dflt ptr [Econst n] st = pfree cpp tgt dflt ptr [] st.
Proof.
  rewrite pfree_one_count, pfree_no_count, pfree2_total, pfree1_total.
  now destruct (type_of ptr) as [[s al | t |] |].
Qed.

(** X10.  Under the default backend the old count given to [pprealloc] has
    no effect: only the new count reaches [realloc]. *)
Theorem dflt_pprealloc_ignores_old_count (cpp : cpp_env) (tgt : abi)
    (pptr new_len : expr) (o1 o2 : Z) (st : state H) :
  pprealloc cpp tgt dflt pptr (Econst o1) new_len st
  = pprealloc cpp tgt dflt pptr (Econst o2) new_len st.
Proof.
  rewrite !pprealloc_total.
  now destruct (type_of pptr) as [[s al | [s al | t |] |] |].
Qed.

(** X11.  Under the default backend the compiler does not matter: whatever
    [typeof] and [alignof] support it has and whichever dispatch header is
    included, every operation of the facade behaves the same, the derived
    alignment being dropped by the backend. *)
Theorem dflt_ignores_compiler (c1 c2 : cpp_env) (tgt : abi) (ptr : expr)
    (va : list expr) (st : state H) :
  palloc c1 tgt dflt ptr va st = palloc c2 tgt dflt ptr va st
  /\ pfree c1 tgt dflt ptr va st = pfree c2 tgt dflt ptr va st
  /\ ppalloc c1 tgt dflt ptr va st = ppalloc c2 tgt dflt ptr va st
  /\ forall old_len new_len,
       pprealloc c1 tgt dflt ptr old_len new_len st
       = pprealloc c2 tgt dflt ptr old_len new_len st.
Proof.
  assert (Hp : forall e, palloc c1 tgt dflt e va st = palloc c2 tgt dflt e va st).
  { intros e. destruct va as [| n [| n' va']].
    - rewrite !palloc_no_count, !palloc1_total.
      now destruct (type_of e) as [[s al | t |] |].
    - rewrite !palloc_one_count, !palloc2_total.
      now destruct (type_of e) as [[s al | t |] |].
    - now rewrite !palloc_more_counts. }
  split; [apply Hp |]. split; [| split; [apply Hp |]].
  - destruct va as [| n [| n' va']].
    + rewrite !pfree_no_count, !pfree1_total.
      now destruct (type_of ptr) as [[s al | t |] |].
    + rewrite !pfree_one_count, !pfree2_total.
      now destruct (type_of ptr) as [[s al | t |] |].
    + now rewrite !pfree_more_counts.
  - intros old_len new_len. rewrite !pprealloc_total.
    now destruct (type_of ptr) as [[s al | [s al | t |] |] |].
Qed.
End DefaultIgnores.

(** ** The accounting of the test allocator *)

Lemma to_size_t_sub_add (tgt : abi) (x s n k : Z) :
  to_size_t tgt (to_size_t tgt (x + size_mul tgt s n) - size_mul tgt s k)
  = to_size_t tgt (x + s * n - s * k).
Proof.
  rewrite !size_mul_mod. unfold to_size_t.
  destruct (Z.eq_dec (2 ^ size_bits tgt) 0) as [E | NE].
  - rewrite E. now rewrite !Z.mod_0_r.
  - rewrite Zminus_mod_idemp_l, Zminus_mod_idemp_r.
    rewrite <- (Zminus_mod_idemp_l (x + (s * n) mod _)).
    rewrite Zplus_mod_idemp_r. now rewrite Zminus_mod_idemp_l.
Qed.

Lemma to_size_t_sub_add_add (tgt : abi) (x s o n : Z) :
  to_size_t tgt (x - size_mul tgt s o + size_mul tgt s n)
  = to_size_t tgt (x - s * o + s * n).
Proof.
  rewrite !size_mul_mod. unfold to_size_t.
  destruct (Z.eq_dec (2 ^ size_bits tgt) 0) as [E | NE].
  - rewrite E. now rewrite !Z.mod_0_r.
  - rewrite Zplus_mod_idemp_r.
    rewrite <- (Zplus_mod_idemp_l (x - (s * o) mod _)).
    rewrite Zminus_mod_idemp_r. now rewrite Zplus_mod_idemp_l.
Qed.

Section TestAccounting.
Context {H : Type} `{!LibC H}.
Variable tgt : abi.

Lemma test_alloc_counts (al sz p : Z) (w : test_world H) (h1 : H) :
  should_fail (test_allocator w) = false ->
  malloc sz (test_heap w) = (p, h1) ->
  test_alloc tgt addr_test_allocator al sz w
  = Some (p, {| test_allocator :=
                  {| alloc_count :=
                       to_size_t tgt (alloc_count (test_allocator w) + 1);
                     free_count := free_count (test_allocator w);
                     total_allocated :=
                       to_size_t tgt (total_allocated (test_allocator w) + sz);
                     should_fail := false |};
                test_heap := h1 |}).
Proof.
  intros Hsf Hm. unfold test_alloc. rewrite decide_True by reflexivity.
  now rewrite Hsf, Hm.
Qed.

Lemma test_free_counts (al sz p : Z) (w : test_world H) (h2 : H) :
  p <> NULL ->
  free p (test_heap w) = Some h2 ->
  test_free tgt addr_test_allocator p al sz w
  = Some {| test_allocator :=
              {| alloc_count := alloc_count (test_allocator w);
                 free_count :=
                   to_size_t tgt (free_count (test_allocator w) + 1);
                 total_allocated :=
                   to_size_t tgt (total_allocated (test_allocator w) - sz);
                 should_fail := should_fail (test_allocator w) |};
            test_heap := h2 |}.
Proof.
  intros Hp Hf. unfold test_free. rewrite decide_True by reflexivity.
  rewrite decide_False by exact Hp. now rewrite Hf.
Qed.

Lemma test_fails (w : test_world H) :
  should_fail (test_allocator w) = true ->
  (forall al sz, test_alloc tgt addr_test_allocator al sz w = Some (NULL, w))
  /\ (forall p al so sn,
        test_realloc tgt addr_test_allocator p al so sn w = Some (NULL, w)).
Proof.
  intros Hsf. split; intros; unfold test_alloc, test_realloc;
    rewrite decide_True by reflexivity; now rewrite Hsf.
Qed.
End TestAccounting.

(** X12.  Under the test allocator, [ppalloc(&v, n)] followed by
    [pfree(v, k)], when [malloc] gave a block and [free] takes it back,
    leaves one allocation and one release counted and the total changed by
    [sizeof(T) * n - sizeof(T) * k] modulo [2 ^ size_bits]: the total is back
    where it was when [k = n], wrapped sizes included, and is off when the
    counts differ. *)
Theorem test_allocator_round_trip {H : Type} `{!LibC H} (cpp : cpp_env)
    (tgt : abi) (a : Z) (t : ctype) (n k p : Z) (m : gmap Z Z)
    (w : test_world H) (h1 h2 : H) :
  should_fail (test_allocator w) = false ->
  is_Some (load m a) ->
  malloc (size_mul tgt (sizeof tgt t) n) (test_heap w) = (p, h1) ->
  p <> NULL ->
  free p h1 = Some h2 ->
  exists st1 st2,
    ppalloc cpp tgt (test_backend tgt) (Eaddrof (Evar a (Tpointer t)))
      [Econst n] {| st_mem := m; st_world := w |} = Some (p, st1)
    /\ pfree cpp tgt (test_backend tgt) (Evar a (Tpointer t)) [Econst k] st1
       = Some st2
    /\ test_allocator (st_world st2)
       = {| alloc_count := to_size_t tgt (alloc_count (test_allocator w) + 1);
            free_count := to_size_t tgt (free_count (test_allocator w) + 1);
            total_allocated :=
              to_size_t tgt (total_allocated (test_allocator w)
                             + sizeof tgt t * n - sizeof tgt t * k);
            should_fail := false |}
    /\ test_heap (st_world st2) = h2
    /\ (k = n ->
        0 <= total_allocated (test_allocator w) < 2 ^ size_bits tgt ->
        total_allocated (test_allocator (st_world st2))
        = total_allocated (test_allocator w)).
Proof.
  intros Hsf Hl Hm Hp Hf.
  pose proof (load_not_null _ _ Hl) as Ha.
  eexists. eexists. split; [| split; [| split; [| split]]].
  - unfold ppalloc. rewrite palloc_one_count.
    rewrite (palloc2_pointee cpp tgt (test_backend tgt)
               (Ederef (Eaddrof (Evar a (Tpointer t)))) t eq_refl a n _ eq_refl).
    apply allocate_into_result; [exact Hl |].
    simpl. apply test_alloc_counts; [exact Hsf | exact Hm].
  - rewrite pfree_one_count.
    rewrite (pfree2_pointee cpp tgt (test_backend tgt)
               (Evar a (Tpointer t)) t eq_refl p k).
    + unfold release. simpl.
      erewrite test_free_counts; [reflexivity | exact Hp | exact Hf].
    + simpl. now apply load_insert.
  - simpl. now rewrite to_size_t_sub_add.
  - reflexivity.
  - intros -> Hr. simpl. rewrite to_size_t_sub_add.
    unfold to_size_t. rewrite Z.mod_small; lia.
Qed.

(** The test [custom_allocator]: ten [int]s allocated and released. *)
Lemma test_allocator_round_trip_witness :
  exists st1 st2,
    ppalloc clang_c2x LP64 (test_backend LP64) (Eaddrof nums) [Econst 10]
      {| st_mem := caller_mem; st_world := fresh |} = Some (65536, st1)
    /\ pfree clang_c2x LP64 (test_backend LP64) nums [Econst 10] st1
       = Some st2
    /\ test_allocator (st_world st2)
       = {| alloc_count := to_size_t LP64 (alloc_count (test_allocator fresh) + 1);
            free_count := to_size_t LP64 (free_count (test_allocator fresh) + 1);
            total_allocated :=
              to_size_t LP64 (total_allocated (test_allocator fresh)
                              + sizeof LP64 Tint * 10 - sizeof LP64 Tint * 10);
            should_fail := false |}
    /\ test_heap (st_world st2)
       = {| blocks := ∅; brk := 65576; heap_end := 65600 |}
    /\ (10 = 10 ->
        0 <= total_allocated (test_allocator fresh) < 2 ^ size_bits LP64 ->
        total_allocated (test_allocator (st_world st2))
        = total_allocated (test_allocator fresh)).
Proof.
  apply (test_allocator_round_trip clang_c2x LP64 100 Tint 10 10 65536
           caller_mem fresh
           {| blocks := {[ 65536 := 40 ]}; brk := 65576; heap_end := 65600 |}
           {| blocks := ∅; brk := 65576; heap_end := 65600 |}).
  - reflexivity.
  - exists NULL. reflexivity.
  - reflexivity.
  - discriminate.
  - reflexivity.
Defined.

(** X13.  The test allocator counts an allocation before it calls [malloc]:
    when [malloc] itself fails, [ppalloc] leaves the pointer null with
    [alloc_count] and [total_allocated] already raised, and the [pfree] of
    that null pointer changes nothing, so the counters stay raised. *)
Theorem test_allocator_counts_failed_malloc {H : Type} `{!LibC H}
    (cpp : cpp_env) (tgt : abi) (a : Z) (t : ctype) (n k : Z) (m : gmap Z Z)
    (w : test_world H) (h1 : H) :
  should_fail (test_allocator w) = false ->
  is_Some (load m a) ->
  malloc (size_mul tgt (sizeof tgt t) n) (test_heap w) = (NULL, h1) ->
  exists st1,
    ppalloc cpp tgt (test_backend tgt) (Eaddrof (Evar a (Tpointer t)))
      [Econst n] {| st_mem := m; st_world := w |} = Some (NULL, st1)
    /\ alloc_count (test_allocator (st_world st1))
       = to_size_t tgt (alloc_count (test_allocator w) + 1)
    /\ total_allocated (test_allocator (st_world st1))
       = to_size_t tgt (total_allocated (test_allocator w)
                        + size_mul tgt (sizeof tgt t) n)
    /\ pfree cpp tgt (test_backend tgt) (Evar a (Tpointer t)) [Econst k] st1
       = Some st1.
Proof.
  intros Hsf Hl Hm.
  pose proof (load_not_null _ _ Hl) as Ha.
  eexists. split; [| split; [| split]].
  - unfold ppalloc. rewrite palloc_one_count.
    rewrite (palloc2_pointee cpp tgt (test_backend tgt)
               (Ederef (Eaddrof (Evar a (Tpointer t)))) t eq_refl a n _ eq_refl).
    apply allocate_into_result; [exact Hl |].
    simpl. apply test_alloc_counts; [exact Hsf | exact Hm].
  - reflexivity.
  - reflexivity.
  - rewrite pfree_one_count.
    rewrite (pfree2_pointee cpp tgt (test_backend tgt)
               (Evar a (Tpointer t)) t eq_refl NULL k).
    + unfold release. simpl. reflexivity.
    + simpl. now apply load_insert.
Qed.

(** Ten [int]s asked of a heap with four bytes left. *)
Lemma test_allocator_counts_failed_malloc_witness :
  exists st1,
    ppalloc clang_c2x LP64 (test_backend LP64) (Eaddrof nums) [Econst 10]
      {| st_mem := holder_mem; st_world := fresh_full |} = Some (NULL, st1)
    /\ alloc_count (test_allocator (st_world st1))
       = to_size_t LP64 (alloc_count (test_allocator fresh_full) + 1)
    /\ total_allocated (test_allocator (st_world st1))
       = to_size_t LP64 (total_allocated (test_allocator fresh_full)
                         + size_mul LP64 (sizeof LP64 Tint) 10)
    /\ pfree clang_c2x LP64 (test_backend LP64) nums [Econst 10] st1
       = Some st1.
Proof.
  apply (test_allocator_counts_failed_malloc clang_c2x LP64 100 Tint 10 10
           holder_mem fresh_full heap_full).
  - reflexivity.
  - exists 65536. reflexivity.
  - reflexivity.
Defined.

(** X14.  Under the test allocator [pprealloc(pptr, old, new)] moves
    [total_allocated] by [sizeof(T) * new - sizeof(T) * old] modulo
    [2 ^ size_bits] and counts neither an allocation nor a release, whatever
    [realloc] returns, the null pointer of a failed [realloc] included. *)
Theorem test_allocator_realloc_accounting {H : Type} `{!LibC H}
    (cpp : cpp_env) (tgt : abi) (pptr : expr) (t : ctype)
    (a p o n q : Z) (st : state (test_world H)) (h1 : H) :
  should_fail (test_allocator (st_world st)) = false ->
  type_of pptr = Some (Tpointer (Tpointer t)) ->
  eval_rvalue (st_mem st) pptr = Some a ->
  load (st_mem st) a = Some p ->
  realloc p (size_mul tgt (sizeof tgt t) n) (test_heap (st_world st))
  = Some (q, h1) ->
  exists st',
    pprealloc cpp tgt (test_backend tgt) pptr (Econst o) (Econst n) st
    = Some (q, st')
    /\ test_allocator (st_world st')
       = {| alloc_count := alloc_count (test_allocator (st_world st));
            free_count := free_count (test_allocator (st_world st));
            total_allocated :=
              to_size_t tgt (total_allocated (test_allocator (st_world st))
                             - sizeof tgt t * o + sizeof tgt t * n);
            should_fail := false |}
    /\ test_heap (st_world st') = h1
    /\ load (st_mem st') a = Some q.
Proof.
  intros Hsf Hty Ha Hl Hr.
  assert (Hs : is_Some (load (st_mem st) a)) by (rewrite Hl; eauto).
  eexists. split; [| split; [| split]].
  - rewrite (pprealloc_pointee cpp tgt _ pptr t a p o n st Hty Ha Hl).
    apply reallocate_into_result; [exact Hs |].
    simpl. unfold test_realloc. rewrite decide_True by reflexivity.
    rewrite Hsf, Hr. reflexivity.
  - simpl. now rewrite to_size_t_sub_add_add.
  - reflexivity.
  - simpl. apply load_insert. exact (load_not_null _ _ Hs).
Qed.

(** The test [custom_allocator] grows five [double]s to eight; here the
    heap has no room, [realloc] fails, and the total is raised all the
    same. *)
Lemma test_allocator_realloc_accounting_witness :
  exists st',
    pprealloc clang_c2x LP64 (test_backend LP64)
      (Eaddrof (Evar 100 (Tpointer Tdouble))) (Econst 5) (Econst 8)
      {| st_mem := holder_mem; st_world := fresh_full |} = Some (NULL, st')
    /\ test_allocator (st_world st')
       = {| alloc_count := alloc_count (test_allocator fresh_full);
            free_count := free_count (test_allocator fresh_full);
            total_allocated :=
              to_size_t LP64 (total_allocated (test_allocator fresh_full)
                              - sizeof LP64 Tdouble * 5
                              + sizeof LP64 Tdouble * 8);
            should_fail := false |}
    /\ test_heap (st_world st') = heap_full
    /\ load (st_mem st') 100 = Some NULL.
Proof.
  apply (test_allocator_realloc_accounting clang_c2x LP64
           (Eaddrof (Evar 100 (Tpointer Tdouble))) Tdouble 100 65536 5 8 NULL
           {| st_mem := holder_mem; st_world := fresh_full |} heap_full).
  - reflexivity.
  - reflexivity.
  - reflexivity.
  - reflexivity.
  - reflexivity.
Defined.

(** X15.  Under the test allocator [pfree] of a null pointer, with any
    count or none, returns before anything is counted: the counters, the
    heap and the caller's objects are as they were. *)
Theorem test_allocator_free_null {H : Type} `{!LibC H} (cpp : cpp_env)
    (tgt : abi) (ptr : expr) (t : ctype) (st : state (test_world H)) :
  type_of ptr = Some (Tpointer t) ->
  eval_rvalue (st_mem st) ptr = Some NULL ->
  pfree cpp tgt (test_backend tgt) ptr [] st = Some st
  /\ forall n : Z, pfree cpp tgt (test_backend tgt) ptr [Econst n] st = Some st.
Proof.
  intros Hty Hp. destruct st as [m w]. split.
  - rewrite pfree_no_count,
      (pfree1_pointee cpp tgt (test_backend tgt) ptr t Hty NULL _ Hp).
    unfold release. simpl. reflexivity.
  - intros n.
    rewrite pfree_one_count,
      (pfree2_pointee cpp tgt (test_backend tgt) ptr t Hty NULL n _ Hp).
    unfold release. simpl. reflexivity.
Qed.

Lemma test_allocator_free_null_witness :
  pfree clang_c2x LP64 (test_backend LP64) nums []
    {| st_mem := caller_mem; st_world := fresh |}
  = Some {| st_mem := caller_mem; st_world := fresh |}
  /\ forall n : Z,
       pfree clang_c2x LP64 (test_backend LP64) nums [Econst n]
         {| st_mem := caller_mem; st_world := fresh |}
       = Some {| st_mem := caller_mem; st_world := fresh |}.
Proof.
  apply (test_allocator_free_null clang_c2x LP64 nums Tint
           {| st_mem := caller_mem; st_world := fresh |}).
  - reflexivity.
  - reflexivity.
Defined.

(** X16.  With [should_fail] set, every allocation and reallocation through
    the facade returns null, nulls the caller's pointer, counts nothing and
    does not reach [malloc] or [realloc]: the allocator's record and the
    heap are as they were. *)
Theorem test_allocator_should_fail {H : Type} `{!LibC H} (cpp : cpp_env)
    (tgt : abi) (pptr : expr) (t : ctype) (a p : Z)
    (st : state (test_world H)) :
  should_fail (test_allocator (st_world st)) = true ->
  type_of pptr = Some (Tpointer (Tpointer t)) ->
  eval_rvalue (st_mem st) pptr = Some a ->
  load (st_mem st) a = Some p ->
  ppalloc cpp tgt (test_backend tgt) pptr [] st
  = Some (NULL, assign a NULL (st_world st) st)
  /\ (forall n : Z,
        ppalloc cpp tgt (test_backend tgt) pptr [Econst n] st
        = Some (NULL, assign a NULL (st_world st) st))
  /\ (forall o n : Z,
        pprealloc cpp tgt (test_backend tgt) pptr (Econst o) (Econst n) st
        = Some (NULL, assign a NULL (st_world st) st)).
Proof.
  intros Hsf Hty Ha Hl.
  assert (Hs : is_Some (load (st_mem st) a)) by (rewrite Hl; eauto).
  assert (Hin : type_of (Ederef pptr) = Some (Tpointer t))
    by (simpl; now rewrite Hty).
  destruct (test_fails tgt (st_world st) Hsf) as [Hal Hre].
  split; [| split].
  - unfold ppalloc. rewrite palloc_no_count.
    rewrite (palloc1_pointee cpp tgt (test_backend tgt) _ t Hin a st Ha).
    apply allocate_into_result; [exact Hs | apply Hal].
  - intros n. unfold ppalloc. rewrite palloc_one_count.
    rewrite (palloc2_pointee cpp tgt (test_backend tgt) _ t Hin a n st Ha).
    apply allocate_into_result; [exact Hs | apply Hal].
  - intros o n.
    rewrite (pprealloc_pointee cpp tgt _ pptr t a p o n st Hty Ha Hl).
    apply reallocate_into_result; [exact Hs | apply Hre].
Qed.

Lemma test_allocator_should_fail_witness :
  ppalloc gcc_c17 LP64 (test_backend LP64) out []
    {| st_mem := holder_mem; st_world := failing |}
  = Some (NULL, assign 100 NULL failing
                  {| st_mem := holder_mem; st_world := failing |})
  /\ (forall n : Z,
        ppalloc gcc_c17 LP64 (test_backend LP64) out [Econst n]
          {| st_mem := holder_mem; st_world := failing |}
        = Some (NULL, assign 100 NULL failing
                        {| st_mem := holder_mem; st_world := failing |}))
  /\ (forall o n : Z,
        pprealloc gcc_c17 LP64 (test_backend LP64) out (Econst o) (Econst n)
          {| st_mem := holder_mem; st_world := failing |}
        = Some (NULL, assign 100 NULL failing
                        {| st_mem := holder_mem; st_world := failing |})).
Proof.
  apply (test_allocator_should_fail gcc_c17 LP64 out Tint 100 65536
           {| st_mem := holder_mem; st_world := failing |}).
  - reflexivity.
  - reflexivity.
  - reflexivity.
  - reflexivity.
Defined.

(** ** One size and one alignment across the operations *)

(** X17.  For one pointer variable and one count, the size [palloc] asks
    for, the old size and the new size [pprealloc] passes for that count, and
    the size [pfree] reports are one value, [sizeof(T) * n] modulo
    [2 ^ size_bits], and the four calls carry one alignment: a caller who
    repeats the count hands the backend the figures it allocated under. *)
Theorem facade_sizes_agree {W : Type} (cpp : cpp_env) (tgt : abi)
    (be : backend W) (a : Z) (t : ctype) (n k : Z) :
  exists al sz szk,
    sz = (sizeof tgt t * n) mod 2 ^ size_bits tgt
    /\ szk = (sizeof tgt t * k) mod 2 ^ size_bits tgt
    /\ (forall st,
          palloc cpp tgt be (Evar a (Tpointer t)) [Econst n] st
          = allocate_into be a al sz st)
    /\ (forall st p, load (st_mem st) a = Some p ->
          pprealloc cpp tgt be (Eaddrof (Evar a (Tpointer t)))
            (Econst n) (Econst k) st
          = reallocate_into be a p al sz szk st)
    /\ (forall st p, load (st_mem st) a = Some p ->
          pprealloc cpp tgt be (Eaddrof (Evar a (Tpointer t)))
            (Econst k) (Econst n) st
          = reallocate_into be a p al szk sz st)
    /\ (forall st p, load (st_mem st) a = Some p ->
          pfree cpp tgt be (Evar a (Tpointer t)) [Econst n] st
          = release be p al sz st).
Proof.
  exists (derived_alignment cpp tgt t),
    (size_mul tgt (sizeof tgt t) n), (size_mul tgt (sizeof tgt t) k).
  split; [apply size_mul_mod |]. split; [apply size_mul_mod |].
  split; [| split; [| split]].
  - intros st. rewrite palloc_one_count.
    now apply palloc2_pointee.
  - intros st p Hl. now apply pprealloc_pointee.
  - intros st p Hl. now apply pprealloc_pointee.
  - intros st p Hl. rewrite pfree_one_count.
    now apply pfree2_pointee.
Qed.
